(** * actions-tagger: [src/functions/private.ts]

    A shallow embedding of the event classifiers, the version resolvers,
    the ref upsert ([createRef]) and the paginated ref enumerator
    ([listAllRefs]), followed by the properties established about them. *)

From Stdlib Require Import String Ascii List Bool Arith NArith Lia.
Import ListNotations.
Open Scope string_scope.

(** ** JavaScript strings *)

(** [s.startsWith(t)] *)
Definition startsWith (s t : string) : bool := String.prefix t s.

(** [s.endsWith(t)] *)
Definition endsWith (s t : string) : bool :=
  Nat.leb (String.length t) (String.length s) &&
  String.eqb (substring (String.length s - String.length t) (String.length t) s) t.

(** [s.replace(new RegExp("^" + p), "")] for a pattern text [p] without
    regular-expression metacharacters, which is the case for the two
    namespaces the action accepts (heads, tags): the literal prefix is
    removed when present, and the string is returned unchanged otherwise. *)
Definition replacePrefix (p s : string) : string :=
  if String.prefix p s
  then substring (String.length p) (String.length s - String.length p) s
  else s.

(** The double quote character, as a one-character string. *)
Definition dquote : string := String (ascii_of_nat 34) EmptyString.

(** ** Values of the semver package *)

(** The fields of a [SemVer] instance the action relies on. *)
Record SemVer : Type := mkSemVer {
  major : N;
  minor : N;
  patch : N;
  prerelease : list string;
  build : list string
}.

(** The JavaScript values that reach [semverParse] and [coerce] here. *)
Inductive JsValue : Type :=
| undefined
| null
| JsString (s : string)
| JsSemVer (v : SemVer).

(** What [private.ts] imports from outside the file: the string grammar of
    the semver package (strict parsing and coercion, [None] for a string
    the grammar rejects) and the GraphQL query text of the util module. *)
Class Imports : Type := {
  parse_string : string -> option SemVer;
  coerce_string : string -> option SemVer;
  queryAllRefs : string
}.

(** ** Completions *)

Inductive JsError : Type :=
| TypeError (msg : string)
| RequestError (msg : string).

(** How a synchronous call or a remote request completes. *)
Inductive Completion (A : Type) : Type :=
| Normal (a : A)
| Throw (e : JsError).
Arguments Normal {A} a.
Arguments Throw {A} e.

(** ** The ambient state: [context], [process.env], [core.isDebug()] *)

Record Release : Type := {
  release_prerelease : option bool;
  tag_name : option string
}.

Record Payload : Type := {
  release : option Release;
  created : option bool;
  ref : option string
}.

Record Repo : Type := {
  owner : string;
  repo : string
}.

Record Context : Type := {
  eventName : string;
  payload : Payload;
  context_repo : Repo
}.

Record Env : Type := {
  context : Context;
  GITHUB_SHA : option string;
  isDebug : bool
}.

(** [x === true] for a field that may be absent. *)
Definition strictly_true (x : option bool) : bool :=
  match x with
  | Some true => true
  | _ => false
  end.

(** Interpolation of a possibly absent string in a template literal. *)
Definition interpolate (x : option string) : string :=
  match x with
  | Some s => s
  | None => "undefined"
  end.

(** ** Event classifiers *)

Definition isRelease (ctx : Context) : bool :=
  String.eqb (eventName ctx) "release".

(** [context.payload.release?.prerelease === true] *)
Definition isPreRelease (ctx : Context) : bool :=
  match release (payload ctx) with
  | Some r => strictly_true (release_prerelease r)
  | None => false
  end.

Definition isPublicRelease (ctx : Context) : bool :=
  isRelease ctx && negb (isPreRelease ctx).

Definition isPush (ctx : Context) : bool :=
  String.eqb (eventName ctx) "push".

Definition isNewRefPush (ctx : Context) : bool :=
  isPush ctx && strictly_true (created (payload ctx)).

(** [context.payload.ref.startsWith(p)]: reading [startsWith] off an absent
    [ref] raises a TypeError. *)
Definition ref_startsWith (ctx : Context) (p : string) : Completion bool :=
  match ref (payload ctx) with
  | Some r => Normal (startsWith r p)
  | None => Throw (TypeError "Cannot read properties of undefined (reading 'startsWith')")
  end.

(** [a && b] evaluates [b] only when [a] is true. *)
Definition isBranchPush (ctx : Context) : Completion bool :=
  if isNewRefPush ctx then ref_startsWith ctx "refs/heads/" else Normal false.

Definition isTagPush (ctx : Context) : Completion bool :=
  if isNewRefPush ctx then ref_startsWith ctx "refs/tags/" else Normal false.

(** ** Version resolvers *)

Section Resolver.
Context {imports : Imports}.

(** [semverParse(version)]: an instance is returned as it is, a string goes
    through the strict grammar, and any other value gives [null]; the call
    never throws. *)
Definition semverParse (version : JsValue) : option SemVer :=
  match version with
  | JsSemVer v => Some v
  | JsString s => parse_string s
  | undefined | null => None
  end.

(** [coerce(version)]: an instance is returned as it is, a string is
    searched for a version, and any other value gives [null]. *)
Definition coerce (version : JsValue) : JsValue :=
  match version with
  | JsSemVer v => JsSemVer v
  | JsString s =>
      match coerce_string s with
      | Some v => JsSemVer v
      | None => null
      end
  | undefined | null => null
  end.

(** [(context.payload.ref as string)?.replace(...)]: with no [ref] the
    call is skipped and the pattern is not built. With a [ref], the pattern
    is read as in [replacePrefix], which is what the code does for a
    namespace name without pattern characters; a name with pattern
    characters (matched otherwise, or rejected by [new RegExp] with a
    SyntaxError) is outside this embedding, and every statement below about
    a push with a [ref] assumes [regExpLiteral preferredRef]. *)
Definition pushRefName (preferredRef : string) (ctx : Context) : JsValue :=
  match ref (payload ctx) with
  | Some r => JsString (replacePrefix ("refs/" ++ preferredRef ++ "/") r)
  | None => undefined
  end.

Definition getPushRefVersion (preferredRef : string) (ctx : Context)
  : Completion (option SemVer) :=
  let refName := pushRefName preferredRef ctx in
  Normal (semverParse refName).

(** [context.payload.release?.tag_name] *)
Definition releaseTagName (ctx : Context) : JsValue :=
  match release (payload ctx) with
  | Some r =>
      match tag_name r with
      | Some t => JsString t
      | None => undefined
      end
  | None => undefined
  end.

Definition getReleaseTag (ctx : Context) : Completion (option SemVer) :=
  let tagName := releaseTagName ctx in
  let tagName := if isPreRelease ctx then coerce tagName else tagName in
  Normal (semverParse tagName).

End Resolver.

(** ** The GitHub client *)

(** An element of the [listMatchingRefs] response data. *)
Record RefObj : Type := {
  refObj_ref : string
}.

Record ListMatchingRefsParams : Type := {
  lm_owner : string;
  lm_repo : string;
  lm_ref : string
}.

Record UpdateRefParams : Type := {
  ur_owner : string;
  ur_repo : string;
  ur_force : bool;
  ur_ref : string;
  ur_sha : option string
}.

Record CreateRefParams : Type := {
  cr_owner : string;
  cr_repo : string;
  cr_ref : string;
  cr_sha : option string
}.

(** The response data of a ref mutation; the action only prints it, so it is
    kept as its JSON text. *)
Definition Json : Type := string.

Definition JSON_stringify (data : Json) : string := data.

(** One entry of [refsList]: [ref.name] and [ref.object.shaId]. *)
Record RefNode : Type := {
  ref_name : string;
  ref_object_shaId : string
}.

Record PageInfo : Type := {
  endCursor : string;
  hasNextPage : bool
}.

Record Refs : Type := {
  refsList : list RefNode;
  pageInfo : PageInfo
}.

Record GraphQlQueryRepository : Type := {
  refs : Refs
}.

Record QueryVariables : Type := {
  repoName : string;
  repoOwner : string;
  majorRef : string;
  pagination : option string
}.

(** The client, over a remote in state [R]: every request returns a
    completion and the remote's next state. *)
Record GitHub (R : Type) : Type := {
  git_listMatchingRefs : ListMatchingRefsParams -> R -> Completion (list RefObj) * R;
  git_updateRef : UpdateRefParams -> R -> Completion Json * R;
  git_createRef : CreateRefParams -> R -> Completion Json * R;
  graphql : string -> QueryVariables -> R -> Completion GraphQlQueryRepository * R
}.
Arguments git_listMatchingRefs {R} _ _ _.
Arguments git_updateRef {R} _ _ _.
Arguments git_createRef {R} _ _ _.
Arguments graphql {R} _ _ _ _.

(** ** Tasks: asynchronous code as state passing with a trace *)

(** What a run does that the outside can see, in order: each request with
    its parameters and its answer, each log line, each yielded pair. *)
Inductive Event : Type :=
| ListMatchingRefs (p : ListMatchingRefsParams) (answer : Completion (list RefObj))
| UpdateRef (p : UpdateRefParams) (answer : Completion Json)
| CreateRef (p : CreateRefParams) (answer : Completion Json)
| Graphql (query : string) (v : QueryVariables) (answer : Completion GraphQlQueryRepository)
| Info (msg : string)
| Debug (msg : string)
| Yield (item : SemVer * string).

(** How a task ends: it returns, it throws, or the fuel given to its loop
    ran out before it did either. *)
Inductive Outcome (A : Type) : Type :=
| Returned (a : A)
| Thrown (e : JsError)
| OutOfFuel.
Arguments Returned {A} a.
Arguments Thrown {A} e.
Arguments OutOfFuel {A}.

Definition Task (R A : Type) : Type := R -> Outcome A * R * list Event.

Section Tasks.
Context {R : Type}.

Definition ret {A : Type} (a : A) : Task R A :=
  fun r => (Returned a, r, []).

Definition bind {A B : Type} (m : Task R A) (k : A -> Task R B) : Task R B :=
  fun r =>
    match m r with
    | (Returned a, r1, t1) =>
        match k a r1 with
        | (o, r2, t2) => (o, r2, (t1 ++ t2)%list)
        end
    | (Thrown e, r1, t1) => (Thrown e, r1, t1)
    | (OutOfFuel, r1, t1) => (OutOfFuel, r1, t1)
    end.

(** One observable step without a result. *)
Definition emit (e : Event) : Task R unit :=
  fun r => (Returned tt, r, [e]).

(** [await request(...)]: the request reaches the remote, its answer is
    recorded, and a rejection is rethrown. *)
Definition await {A : Type} (request : R -> Completion A * R)
  (record : Completion A -> Event) : Task R A :=
  fun r =>
    match request r with
    | (Normal a, r') => (Returned a, r', [record (Normal a)])
    | (Throw e, r') => (Thrown e, r', [record (Throw e)])
    end.

Definition starve {A : Type} : Task R A :=
  fun r => (OutOfFuel, r, []).

End Tasks.

Declare Scope task_scope.
Delimit Scope task_scope with task.
Notation "x <- m ;; k" := (bind m (fun x => k))
  (at level 61, m at next level, right associativity) : task_scope.
Notation "m ;; k" := (bind m (fun _ => k))
  (at level 61, right associativity) : task_scope.

(** The three parts of a finished run. *)
Definition outcome {R A : Type} (x : Outcome A * R * list Event) : Outcome A :=
  fst (fst x).

Definition final {R A : Type} (x : Outcome A * R * list Event) : R :=
  snd (fst x).

Definition trace {R A : Type} (x : Outcome A * R * list Event) : list Event :=
  snd x.

(** [core.info], [core.debug] and [yield]. A [yield] hands the pair to the
    consumer and resumes when the next one is asked for: the trace is that
    of a consumer that reads to the end, and one that stops early sees a
    prefix of it. *)
Definition core_info {R : Type} (msg : string) : Task R unit := emit (Info msg).
Definition core_debug {R : Type} (msg : string) : Task R unit := emit (Debug msg).
Definition yield {R : Type} (item : SemVer * string) : Task R unit := emit (Yield item).

(** [for (const x of l) body] *)
Fixpoint forOf {R A : Type} (l : list A) (body : A -> Task R unit) : Task R unit :=
  match l with
  | [] => ret tt
  | x :: l' => (body x ;; forOf l' body)%task
  end.

(** ** [createRef] and [listAllRefs] *)

Section Remote.
Context {imports : Imports} {R : Type}.
Variable github : GitHub R.
Variable env : Env.

Definition listMatchingRefsParams (refName : string) : ListMatchingRefsParams :=
  {| lm_owner := owner (context_repo (context env));
     lm_repo := repo (context_repo (context env));
     lm_ref := refName |}.

Definition updateRefParams (refName : string) : UpdateRefParams :=
  {| ur_owner := owner (context_repo (context env));
     ur_repo := repo (context_repo (context env));
     ur_force := true;
     ur_ref := refName;
     ur_sha := GITHUB_SHA env |}.

Definition createRefParams (refName : string) : CreateRefParams :=
  {| cr_owner := owner (context_repo (context env));
     cr_repo := repo (context_repo (context env));
     cr_ref := "refs/" ++ refName;
     cr_sha := GITHUB_SHA env |}.

(** [matchingRefs.find(refObj => refObj.ref.endsWith(refName))] *)
Definition findMatchingRef (refName : string) (matchingRefs : list RefObj)
  : option RefObj :=
  find (fun refObj => endsWith (refObj_ref refObj) refName) matchingRefs.

Definition createRef (refName : string) : Task R unit :=
  (matchingRefs <-
     await (git_listMatchingRefs github (listMatchingRefsParams refName))
           (ListMatchingRefs (listMatchingRefsParams refName)) ;;
   let matchingRef := findMatchingRef refName matchingRefs in
   upstreamRef <-
     match matchingRef with
     | Some _ =>
         core_info ("Updating ref: " ++ refName ++ " to: "
                    ++ interpolate (GITHUB_SHA env)) ;;
         await (git_updateRef github (updateRefParams refName))
               (UpdateRef (updateRefParams refName))
     | None =>
         core_info ("Creating ref: refs/" ++ refName ++ " for: "
                    ++ interpolate (GITHUB_SHA env)) ;;
         await (git_createRef github (createRefParams refName))
               (CreateRef (createRefParams refName))
     end ;;
   if isDebug env
   then core_debug (JSON_stringify upstreamRef ++ " now points to: " ++ dquote
                    ++ interpolate (GITHUB_SHA env) ++ dquote)
   else ret tt)%task.

Definition queryVariables (preferredRef : string) (nextPage : option string)
  : QueryVariables :=
  {| repoName := repo (context_repo (context env));
     repoOwner := owner (context_repo (context env));
     majorRef := "refs/" ++ preferredRef ++ "/";
     pagination := nextPage |}.

(** The body of the inner loop, for one entry of [refsList]. *)
Definition visitRef (node : RefNode) : Task R unit :=
  match semverParse (JsString (ref_name node)) with
  | Some semverRef =>
      ((if isDebug env then core_debug ("checking " ++ ref_name node) else ret tt) ;;
       yield (semverRef, ref_object_shaId node))%task
  | None =>
      if isDebug env then core_debug ("ignoring " ++ ref_name node) else ret tt
  end.

(** The pagination loop, entered with the cursor [nextPage]; [fuel] bounds
    the number of pages requested. *)
Fixpoint listAllRefs_from (fuel : nat) (preferredRef : string)
  (nextPage : option string) : Task R unit :=
  match fuel with
  | O => starve
  | S fuel' =>
      (repository <-
         await (graphql github queryAllRefs (queryVariables preferredRef nextPage))
               (Graphql queryAllRefs (queryVariables preferredRef nextPage)) ;;
       forOf (refsList (refs repository)) visitRef ;;
       if hasNextPage (pageInfo (refs repository))
       then listAllRefs_from fuel' preferredRef
              (Some (endCursor (pageInfo (refs repository))))
       else ret tt)%task
  end.

(** [nextPage] is declared without a value: the first request carries no
    cursor. *)
Definition listAllRefs (fuel : nat) (preferredRef : string) : Task R unit :=
  listAllRefs_from fuel preferredRef None.

End Remote.

(** ** Views of a trace *)

Definition isRequest (e : Event) : bool :=
  match e with
  | ListMatchingRefs _ _ | UpdateRef _ _ | CreateRef _ _ | Graphql _ _ _ => true
  | Info _ | Debug _ | Yield _ => false
  end.

Definition isUpdate (e : Event) : bool :=
  match e with
  | UpdateRef _ _ => true
  | _ => false
  end.

Definition isCreate (e : Event) : bool :=
  match e with
  | CreateRef _ _ => true
  | _ => false
  end.

(** A returned ref whose full name ends with [refName]. *)
Definition refMatches (refName : string) (refObj : RefObj) : bool :=
  endsWith (refObj_ref refObj) refName.

(** What the answer to the query says about [refName]: a returned ref ends
    with it, none does, or the query was rejected. *)
Definition refExists (refName : string) (answer : Completion (list RefObj))
  : option bool :=
  match answer with
  | Normal matchingRefs => Some (existsb (refMatches refName) matchingRefs)
  | Throw _ => None
  end.

(** The requests of a trace, in order. *)
Definition requests (t : list Event) : list Event := filter isRequest t.

(** The mutations of a trace, without their answers. *)
Inductive Mutation : Type :=
| DoUpdate (p : UpdateRefParams)
| DoCreate (p : CreateRefParams).

Fixpoint mutations (t : list Event) : list Mutation :=
  match t with
  | [] => []
  | UpdateRef p _ :: t' => DoUpdate p :: mutations t'
  | CreateRef p _ :: t' => DoCreate p :: mutations t'
  | _ :: t' => mutations t'
  end.

(** The commit a mutation points its ref at. *)
Definition target (m : Mutation) : option string :=
  match m with
  | DoUpdate p => ur_sha p
  | DoCreate p => cr_sha p
  end.

(** The variables of the page queries of a trace, in order. *)
Fixpoint queries (t : list Event) : list QueryVariables :=
  match t with
  | [] => []
  | Graphql _ v _ :: t' => v :: queries t'
  | _ :: t' => queries t'
  end.

(** The pages the remote answered with, in order. *)
Fixpoint pagesOf (t : list Event) : list GraphQlQueryRepository :=
  match t with
  | [] => []
  | Graphql _ _ (Normal p) :: t' => p :: pagesOf t'
  | _ :: t' => pagesOf t'
  end.

(** The yielded pairs of a trace, in order. *)
Fixpoint yields (t : list Event) : list (SemVer * string) :=
  match t with
  | [] => []
  | Yield item :: t' => item :: yields t'
  | _ :: t' => yields t'
  end.

(** The rejections among the answers of a trace. *)
Fixpoint rejections (t : list Event) : list JsError :=
  match t with
  | [] => []
  | ListMatchingRefs _ (Throw e) :: t' => e :: rejections t'
  | UpdateRef _ (Throw e) :: t' => e :: rejections t'
  | CreateRef _ (Throw e) :: t' => e :: rejections t'
  | Graphql _ _ (Throw e) :: t' => e :: rejections t'
  | _ :: t' => rejections t'
  end.

Section Expected.
Context {imports : Imports}.

(** What one entry of a page contributes to the enumeration. *)
Definition parsedRef (node : RefNode) : list (SemVer * string) :=
  match semverParse (JsString (ref_name node)) with
  | Some v => [(v, ref_object_shaId node)]
  | None => []
  end.

Definition parsedRefs (page : GraphQlQueryRepository) : list (SemVer * string) :=
  flat_map parsedRef (refsList (refs page)).

(** What holds of every run of the enumerator, whatever the remote answers
    and however much fuel there is: the yielded pairs are the parsed entries
    of the pages received, and a throw is the rejection of a request. *)
Definition wellFormedRun {R : Type} (run : Outcome unit * R * list Event) : Prop :=
  yields (trace run) = flat_map parsedRefs (pagesOf (trace run)) /\
  match outcome run with
  | Thrown e => rejections (trace run) = [e]
  | Returned _ | OutOfFuel => rejections (trace run) = []
  end.

(** The cursors a run over [pages] sends: none first, then the end cursor
    of each page but the last. *)
Definition cursorsFor (pages : list GraphQlQueryRepository) : list (option string) :=
  None :: map (fun p => Some (endCursor (pageInfo (refs p)))) (removelast pages).

(** The same, for a run entered with the cursor [nextPage]. *)
Fixpoint cursorsFrom (nextPage : option string) (pages : list GraphQlQueryRepository)
  : list (option string) :=
  match pages with
  | [] => []
  | p :: rest => nextPage :: cursorsFrom (Some (endCursor (pageInfo (refs p)))) rest
  end.

End Expected.

Section Served.
Context {imports : Imports} {R : Type}.
Variable github : GitHub R.
Variable env : Env.
Variable preferredRef : string.

(** The remote, starting in state [r], answers an enumeration entered with
    cursor [nextPage] by exactly [pages]: each page is the answer to the
    query carrying the previous page's end cursor, every page but the last
    reports a next page, and the last reports none. *)
Fixpoint serves (pages : list GraphQlQueryRepository) (nextPage : option string)
  (r : R) : Prop :=
  match pages with
  | [] => False
  | p :: rest =>
      exists r',
        graphql github queryAllRefs (queryVariables env preferredRef nextPage) r
          = (Normal p, r') /\
        match rest with
        | [] => hasNextPage (pageInfo (refs p)) = false
        | _ :: _ =>
            hasNextPage (pageInfo (refs p)) = true /\
            serves rest (Some (endCursor (pageInfo (refs p)))) r'
        end
  end.

End Served.

(** ** A reference grammar for the semver imports

    [v?MAJOR.MINOR.PATCH(-PRERELEASE)?(+BUILD)?] for strict parsing, and
    the first [MAJOR(.MINOR(.PATCH)?)?] run of digits for coercion. It is
    used to run the embedding on concrete events and pages. *)

Definition is_digit (c : ascii) : bool :=
  Nat.leb 48 (nat_of_ascii c) && Nat.leb (nat_of_ascii c) 57.

Definition is_letter (c : ascii) : bool :=
  (Nat.leb 65 (nat_of_ascii c) && Nat.leb (nat_of_ascii c) 90) ||
  (Nat.leb 97 (nat_of_ascii c) && Nat.leb (nat_of_ascii c) 122).

Definition is_identifier_char (c : ascii) : bool :=
  is_digit c || is_letter c || Ascii.eqb c "-".

Fixpoint all_chars (p : ascii -> bool) (s : string) : bool :=
  match s with
  | EmptyString => true
  | String c s' => p c && all_chars p s'
  end.

Fixpoint number_of (acc : N) (s : string) : N :=
  match s with
  | EmptyString => acc
  | String c s' => number_of (10 * acc + N.of_nat (nat_of_ascii c - 48)) s'
  end.

(** The pieces of [s] between occurrences of [sep]. *)
Fixpoint split_on (sep : ascii) (s : string) : list string :=
  match s with
  | EmptyString => [EmptyString]
  | String c s' =>
      if Ascii.eqb c sep then EmptyString :: split_on sep s'
      else match split_on sep s' with
           | [] => [String c EmptyString]
           | piece :: pieces => String c piece :: pieces
           end
  end.

(** [s] cut at the first [sep], when there is one. *)
Fixpoint break_at (sep : ascii) (s : string) : string * option string :=
  match s with
  | EmptyString => (EmptyString, None)
  | String c s' =>
      if Ascii.eqb c sep then (EmptyString, Some s')
      else let (before, after) := break_at sep s' in (String c before, after)
  end.

(** A run of digits without a leading zero. *)
Definition numeric_identifier (s : string) : option N :=
  match s with
  | EmptyString => None
  | String c s' =>
      if all_chars is_digit s && (negb (Ascii.eqb c "0") || String.eqb s' EmptyString)
      then Some (number_of 0 s)
      else None
  end.

Definition prerelease_identifier (s : string) : bool :=
  negb (String.eqb s EmptyString) && all_chars is_identifier_char s &&
  (negb (all_chars is_digit s) ||
   match numeric_identifier s with Some _ => true | None => false end).

Definition build_identifier (s : string) : bool :=
  negb (String.eqb s EmptyString) && all_chars is_identifier_char s.

Definition identifiers (valid : string -> bool) (part : option string)
  : option (list string) :=
  match part with
  | None => Some []
  | Some s =>
      let ids := split_on "." s in
      if forallb valid ids then Some ids else None
  end.

Definition reference_parse (s : string) : option SemVer :=
  let s := match s with
           | String "v" s' => s'
           | _ => s
           end in
  let (s, bld) := break_at "+" s in
  let (core, pre) := break_at "-" s in
  match split_on "." core with
  | [a; b; c] =>
      match numeric_identifier a, numeric_identifier b, numeric_identifier c,
            identifiers prerelease_identifier pre, identifiers build_identifier bld with
      | Some ma, Some mi, Some pa, Some pr, Some bu => Some (mkSemVer ma mi pa pr bu)
      | _, _, _, _, _ => None
      end
  | _ => None
  end.

(** The leading digits of [s] and what follows them. *)
Fixpoint take_digits (s : string) : string * string :=
  match s with
  | String c s' =>
      if is_digit c
      then let (ds, rest) := take_digits s' in (String c ds, rest)
      else (EmptyString, s)
  | EmptyString => (EmptyString, EmptyString)
  end.

(** [s] from its first digit on. *)
Fixpoint from_first_digit (s : string) : string :=
  match s with
  | String c s' => if is_digit c then s else from_first_digit s'
  | EmptyString => EmptyString
  end.

(** A further [.digits] component, 0 when there is none. *)
Definition next_component (s : string) : N * string :=
  match s with
  | String "." s' =>
      match take_digits s' with
      | (EmptyString, _) => (0%N, s)
      | (ds, rest) => (number_of 0 ds, rest)
      end
  | _ => (0%N, s)
  end.

Definition reference_coerce (s : string) : option SemVer :=
  match take_digits (from_first_digit s) with
  | (EmptyString, _) => None
  | (ds, rest) =>
      let (mi, rest') := next_component rest in
      let (pa, _) := next_component rest' in
      Some (mkSemVer (number_of 0 ds) mi pa [] [])
  end.

Definition reference_imports : Imports :=
  {| parse_string := reference_parse;
     coerce_string := reference_coerce;
     queryAllRefs := "query ($repoOwner: String!, $repoName: String!, $majorRef: String!, $pagination: String)" |}.

(** ** An in-memory remote

    A ref store and the pages an enumeration is answered with, one per
    query. *)

Record Store : Type := {
  store_refs : list (string * string);
  store_pages : list GraphQlQueryRepository
}.

Definition store_has (name : string) (st : Store) : bool :=
  existsb (fun entry => String.eqb (fst entry) name) (store_refs st).

Definition store_set (name sha : string) (st : Store) : Store :=
  {| store_refs :=
       (name, sha) :: filter (fun entry => negb (String.eqb (fst entry) name)) (store_refs st);
     store_pages := store_pages st |}.

Definition memory_github : GitHub Store :=
  {| git_listMatchingRefs := fun p st =>
       (Normal (map (fun entry => {| refObj_ref := fst entry |})
                    (filter (fun entry => startsWith (fst entry) ("refs/" ++ lm_ref p))
                            (store_refs st))), st);
     git_updateRef := fun p st =>
       match ur_sha p with
       | Some sha =>
           if store_has ("refs/" ++ ur_ref p) st
           then (Normal ("refs/" ++ ur_ref p), store_set ("refs/" ++ ur_ref p) sha st)
           else (Throw (RequestError "Reference does not exist"), st)
       | None => (Throw (RequestError "Validation Failed"), st)
       end;
     git_createRef := fun p st =>
       match cr_sha p with
       | Some sha =>
           if store_has (cr_ref p) st
           then (Throw (RequestError "Reference already exists"), st)
           else (Normal (cr_ref p), store_set (cr_ref p) sha st)
       | None => (Throw (RequestError "Validation Failed"), st)
       end;
     graphql := fun _ _ st =>
       match store_pages st with
       | page :: rest =>
           (Normal page, {| store_refs := store_refs st; store_pages := rest |})
       | [] => (Throw (RequestError "no response"), st)
       end |}.

(** ** Sample events, environments and pages *)

Definition sample_repo : Repo := {| owner := "octo"; repo := "tagger" |}.

Definition release_event (tag : option string) (pre : bool) : Context :=
  {| eventName := "release";
     payload := {| release := Some {| release_prerelease := Some pre; tag_name := tag |};
                   created := None;
                   ref := None |};
     context_repo := sample_repo |}.

Definition push_event (r : option string) (isNew : bool) : Context :=
  {| eventName := "push";
     payload := {| release := None; created := Some isNew; ref := r |};
     context_repo := sample_repo |}.

Definition sample_env (ctx : Context) : Env :=
  {| context := ctx; GITHUB_SHA := Some "c0ffee"; isDebug := false |}.

(** The same push, the same commit, run in a fork of the repository. *)
Definition fork_env : Env :=
  {| context := {| eventName := "push";
                   payload := {| release := None; created := Some true;
                                 ref := Some "refs/tags/v1.0.1" |};
                   context_repo := {| owner := "fork"; repo := "tagger" |} |};
     GITHUB_SHA := Some "c0ffee";
     isDebug := true |}.

Definition upstream_env : Env :=
  sample_env (push_event (Some "refs/tags/v1.0.1") true).

Definition page (nodes : list (string * string)) (cursor : string) (more : bool)
  : GraphQlQueryRepository :=
  {| refs := {| refsList := map (fun n => {| ref_name := fst n; ref_object_shaId := snd n |}) nodes;
                pageInfo := {| endCursor := cursor; hasNextPage := more |} |} |}.

Definition two_pages : list GraphQlQueryRepository :=
  [ page [("v1.0.0", "aaa")] "abc" true;
    page [("latest", "bbb")] "def" false ].

Definition sample_store : Store :=
  {| store_refs := [("refs/tags/v1", "old"); ("refs/tags/v1.0.0", "aaa")];
     store_pages := two_pages |}.

(** A namespace none of whose refs is a version. *)
Definition unversioned_pages : list GraphQlQueryRepository :=
  [ page [("latest", "bbb"); ("stable", "ccc")] "p1" true;
    page [] "p2" true;
    page [("nightly", "ddd")] "p3" false ].

Definition unversioned_store : Store :=
  {| store_refs := []; store_pages := unversioned_pages |}.

Definition other_store : Store :=
  {| store_refs := [("refs/tags/v1.0.0", "aaa"); ("refs/tags/v1", "older")];
     store_pages := [] |}.

(** ** The trace an enumeration is expected to leave *)

Section ExpectedTrace.
Context {imports : Imports}.
Variable env : Env.
Variable preferredRef : string.

(** The events of the inner loop over the entries of one page. *)
Definition visitTrace (node : RefNode) : list Event :=
  match semverParse (JsString (ref_name node)) with
  | Some v =>
      (if isDebug env then [Debug ("checking " ++ ref_name node)] else [])
      ++ [Yield (v, ref_object_shaId node)]
  | None => if isDebug env then [Debug ("ignoring " ++ ref_name node)] else []
  end%list.

Definition scanTrace (nodes : list RefNode) : list Event :=
  flat_map visitTrace nodes.

(** Page after page: the query with the current cursor, answered by the
    page, then the page's entries. *)
Fixpoint enumerationTrace (nextPage : option string)
  (pages : list GraphQlQueryRepository) : list Event :=
  match pages with
  | [] => []
  | p :: rest =>
      (Graphql queryAllRefs (queryVariables env preferredRef nextPage) (Normal p)
       :: scanTrace (refsList (refs p))
       ++ enumerationTrace (Some (endCursor (pageInfo (refs p)))) rest)%list
  end.

End ExpectedTrace.

(** ** Further views and sample inputs *)

(** The characters that are not matched literally in a pattern. *)
Definition isRegExpSpecial (c : ascii) : bool :=
  existsb (Ascii.eqb c)
    ["\"; "^"; "$"; "."; "|"; "?"; "*"; "+"; "("; ")"; "["; "]"; "{"; "}"]%char.

(** A pattern text every character of which stands for itself. *)
Definition regExpLiteral (s : string) : bool :=
  all_chars (fun c => negb (isRegExpSpecial c)) s.

Definition isDebugLine (e : Event) : bool :=
  match e with
  | Debug _ => true
  | _ => false
  end.

(** A trace without its [core.debug] lines. *)
Definition withoutDebug (t : list Event) : list Event :=
  filter (fun e => negb (isDebugLine e)) t.

(** The [core.debug] lines of a trace. *)
Definition debugLines (t : list Event) : list Event := filter isDebugLine t.

Definition isInfoLine (e : Event) : bool :=
  match e with
  | Info _ => true
  | _ => false
  end.

(** A page query carrying the imported query text. *)
Definition isPageQuery {imports : Imports} (e : Event) : Prop :=
  match e with
  | Graphql q _ _ => q = queryAllRefs
  | _ => False
  end.

(** The entries of the pages a trace received. *)
Definition entriesOf (t : list Event) : list RefNode :=
  flat_map (fun p => refsList (refs p)) (pagesOf t).

(** The cursor the enumerator holds after [pages], entered with [nextPage]. *)
Fixpoint cursorAfter (nextPage : option string) (pages : list GraphQlQueryRepository)
  : option string :=
  match pages with
  | [] => nextPage
  | p :: rest => cursorAfter (Some (endCursor (pageInfo (refs p)))) rest
  end.

Section Rejected.
Context {imports : Imports} {R : Type}.
Variable github : GitHub R.
Variable env : Env.
Variable preferredRef : string.

(** The remote answers an enumeration entered with cursor [nextPage] by
    [pages], each reporting a next page, and rejects the query after them
    with [e]. *)
Fixpoint servesThenRejects (pages : list GraphQlQueryRepository) (e : JsError)
  (nextPage : option string) (r : R) : Prop :=
  match pages with
  | [] =>
      exists r',
        graphql github queryAllRefs (queryVariables env preferredRef nextPage) r
        = (Throw e, r')
  | p :: rest =>
      exists r',
        graphql github queryAllRefs (queryVariables env preferredRef nextPage) r
        = (Normal p, r') /\
        hasNextPage (pageInfo (refs p)) = true /\
        servesThenRejects rest e (Some (endCursor (pageInfo (refs p)))) r'
  end.

End Rejected.

(** A remote whose second page is never delivered. *)
Definition truncated_store : Store :=
  {| store_refs := [("refs/tags/v1.0.0", "aaa")];
     store_pages := [ page [("v1.0.0", "aaa"); ("latest", "bbb")] "abc" true ] |}.

Definition debug_env : Env :=
  {| context := push_event (Some "refs/tags/v1.0.1") true;
     GITHUB_SHA := Some "c0ffee";
     isDebug := true |}.

(** A grammar that parses like the reference one and coerces nothing. *)
Definition strict_only_imports : Imports :=
  {| parse_string := reference_parse;
     coerce_string := fun _ => None;
     queryAllRefs := @queryAllRefs reference_imports |}.

(** A grammar that coerces like the reference one and parses nothing. *)
Definition coerce_only_imports : Imports :=
  {| parse_string := fun _ => None;
     coerce_string := reference_coerce;
     queryAllRefs := @queryAllRefs reference_imports |}.

(** * Properties *)

(** ** Strings *)

Lemma prefix_comparable (p q s : string) :
  String.prefix p s = true -> String.prefix q s = true ->
  String.prefix p q = true \/ String.prefix q p = true.
Proof.
  revert q s. induction p as [|a p IH]; intros q s Hp Hq.
  - left. destruct q; reflexivity.
  - destruct q as [|b q]; [right; reflexivity|].
    destruct s as [|c s]; [discriminate|].
    simpl in Hp, Hq |- *.
    destruct (ascii_dec a c) as [->|]; [|discriminate].
    destruct (ascii_dec b c) as [->|]; [|discriminate].
    destruct (ascii_dec c c) as [_|n]; [|now elim n].
    eapply IH; eassumption.
Qed.

Lemma heads_tags_disjoint (r : string) :
  startsWith r "refs/heads/" = true -> startsWith r "refs/tags/" = false.
Proof.
  unfold startsWith. intros Hh.
  destruct (String.prefix "refs/tags/" r) eqn:Ht; [|reflexivity].
  destruct (prefix_comparable _ _ _ Hh Ht) as [H|H]; vm_compute in H; discriminate.
Qed.

(** ** Event classifiers *)

Lemma isBranchPush_true (ctx : Context) :
  isBranchPush ctx = Normal true ->
  isNewRefPush ctx = true /\
  exists r, ref (payload ctx) = Some r /\ startsWith r "refs/heads/" = true.
Proof.
  unfold isBranchPush, ref_startsWith.
  destruct (isNewRefPush ctx); [|discriminate].
  destruct (ref (payload ctx)) as [r|]; [|discriminate].
  intros H. injection H as H. split; [reflexivity|]. now exists r.
Qed.

Lemma isTagPush_true (ctx : Context) :
  isTagPush ctx = Normal true ->
  isNewRefPush ctx = true /\
  exists r, ref (payload ctx) = Some r /\ startsWith r "refs/tags/" = true.
Proof.
  unfold isTagPush, ref_startsWith.
  destruct (isNewRefPush ctx); [|discriminate].
  destruct (ref (payload ctx)) as [r|]; [|discriminate].
  intros H. injection H as H. split; [reflexivity|]. now exists r.
Qed.

(** On a new-ref push without a ref, both predicates throw. *)
Lemma push_predicates_throw_without_ref (ctx : Context) :
  isNewRefPush ctx = true -> ref (payload ctx) = None ->
  exists e, isBranchPush ctx = Throw e /\ isTagPush ctx = Throw e.
Proof.
  intros Hnew Href. unfold isBranchPush, isTagPush, ref_startsWith.
  rewrite Hnew, Href. eexists. split; reflexivity.
Qed.

(** C7: [isPublicRelease] holds exactly when [isRelease] holds and
    [isPreRelease] does not. *)
Theorem isPublicRelease_iff (ctx : Context) :
  isPublicRelease ctx = true <-> isRelease ctx = true /\ isPreRelease ctx = false.
Proof.
  unfold isPublicRelease. rewrite andb_true_iff, negb_true_iff. tauto.
Qed.

(** C8: [isBranchPush] and [isTagPush] are never both true, and each of
    them being true makes [isNewRefPush] true. *)
Theorem branch_tag_push_exclusive (ctx : Context) :
  ~ (isBranchPush ctx = Normal true /\ isTagPush ctx = Normal true) /\
  (isBranchPush ctx = Normal true -> isNewRefPush ctx = true) /\
  (isTagPush ctx = Normal true -> isNewRefPush ctx = true).
Proof.
  repeat split.
  - intros [Hb Ht].
    apply isBranchPush_true in Hb as (_ & r & Hr & Hh).
    apply isTagPush_true in Ht as (_ & r' & Hr' & Ht).
    rewrite Hr in Hr'. injection Hr' as <-.
    apply heads_tags_disjoint in Hh. congruence.
  - intros H. now apply isBranchPush_true in H.
  - intros H. now apply isTagPush_true in H.
Qed.

Lemma branch_tag_push_exclusive_witness :
  isBranchPush (push_event (Some "refs/heads/main") true) = Normal true /\
  isTagPush (push_event (Some "refs/heads/main") true) = Normal false /\
  isNewRefPush (push_event (Some "refs/heads/main") true) = true /\
  isTagPush (push_event (Some "refs/tags/v1.2.3") true) = Normal true /\
  isNewRefPush (push_event (Some "refs/tags/v1.2.3") true) = true.
Proof.
  split; [reflexivity|]. split; [reflexivity|].
  split.
  - apply (proj1 (proj2 (branch_tag_push_exclusive
                             (push_event (Some "refs/heads/main") true)))).
    reflexivity.
  - split; [reflexivity|].
    apply (proj2 (proj2 (branch_tag_push_exclusive
                           (push_event (Some "refs/tags/v1.2.3") true)))).
    reflexivity.
Defined.

(** ** Version resolvers *)

Section ResolverFacts.
Context {imports : Imports}.

Lemma semverParse_coerce_string (t : string) :
  semverParse (coerce (JsString t)) = coerce_string t.
Proof.
  unfold coerce. destruct (coerce_string t); reflexivity.
Qed.

Lemma semverParse_coerce_undefined : semverParse (coerce undefined) = None.
Proof. reflexivity. Qed.

Lemma getReleaseTag_tag (ctx : Context) (t : string) :
  releaseTagName ctx = JsString t ->
  getReleaseTag ctx
  = Normal (if isPreRelease ctx then coerce_string t else parse_string t).
Proof.
  intros Ht. unfold getReleaseTag. rewrite Ht.
  destruct (isPreRelease ctx).
  - now rewrite semverParse_coerce_string.
  - reflexivity.
Qed.

Lemma getReleaseTag_no_tag (ctx : Context) :
  releaseTagName ctx = undefined -> getReleaseTag ctx = Normal None.
Proof.
  intros Ht. unfold getReleaseTag. rewrite Ht.
  destruct (isPreRelease ctx); reflexivity.
Qed.

Lemma getPushRefVersion_ref (preferredRef : string) (ctx : Context) (r : string) :
  ref (payload ctx) = Some r ->
  getPushRefVersion preferredRef ctx
  = Normal (parse_string (replacePrefix ("refs/" ++ preferredRef ++ "/") r)).
Proof.
  intros Hr. unfold getPushRefVersion, pushRefName. now rewrite Hr.
Qed.

Lemma getPushRefVersion_no_ref (preferredRef : string) (ctx : Context) :
  ref (payload ctx) = None -> getPushRefVersion preferredRef ctx = Normal None.
Proof.
  intros Hr. unfold getPushRefVersion, pushRefName. now rewrite Hr.
Qed.

(** C6: [getReleaseTag] parses the coerced tag name when the release is a
    pre-release and the tag name itself, strictly, when it is not; for a
    tag name [t] the result is [coerce_string t] in the first case and
    [parse_string t] in the second. [getPushRefVersion], for a namespace
    name without pattern characters, parses the ref without its namespace
    prefix strictly, with no coercion. *)
Theorem coercion_iff_prerelease (preferredRef : string) (ctx : Context) :
  (isPreRelease ctx = true ->
   getReleaseTag ctx = Normal (semverParse (coerce (releaseTagName ctx)))) /\
  (isPreRelease ctx = false ->
   getReleaseTag ctx = Normal (semverParse (releaseTagName ctx))) /\
  (forall t, releaseTagName ctx = JsString t ->
   getReleaseTag ctx
   = Normal (if isPreRelease ctx then coerce_string t else parse_string t)) /\
  (regExpLiteral preferredRef = true ->
   forall r, ref (payload ctx) = Some r ->
   getPushRefVersion preferredRef ctx
   = Normal (parse_string (replacePrefix ("refs/" ++ preferredRef ++ "/") r))).
Proof.
  split; [|split; [|split]].
  - intros Hp. unfold getReleaseTag. now rewrite Hp.
  - intros Hp. unfold getReleaseTag. now rewrite Hp.
  - intros t. apply getReleaseTag_tag.
  - intros _ r. apply getPushRefVersion_ref.
Qed.

(** C4, as the code has it: neither resolver raises an error, whatever the
    context, [getPushRefVersion] for a namespace name without pattern
    characters; with no tag name on the release, or no ref on the push
    (whatever the namespace name then, since the pattern is not built), the
    result is [null], as it is for a name that does not parse. *)
Theorem resolvers_never_throw (preferredRef : string) (ctx : Context) :
  (exists v, getReleaseTag ctx = Normal v) /\
  (regExpLiteral preferredRef = true ->
   exists v, getPushRefVersion preferredRef ctx = Normal v) /\
  (releaseTagName ctx = undefined -> getReleaseTag ctx = Normal None) /\
  (ref (payload ctx) = None -> getPushRefVersion preferredRef ctx = Normal None).
Proof.
  split; [|split; [|split]].
  - eexists. reflexivity.
  - intros _. eexists. reflexivity.
  - apply getReleaseTag_no_tag.
  - apply getPushRefVersion_no_ref.
Qed.

(** C10: the resolvers return [null] instead of raising: for a release
    without a tag name, for a pre-release whose tag name cannot be coerced,
    for a public release whose tag name does not parse, for a push without
    a ref, and, for a namespace name without pattern characters, for a push
    whose ref, without its namespace prefix, does not parse. *)
Theorem resolvers_return_null (preferredRef : string) (ctx : Context) :
  (releaseTagName ctx = undefined -> getReleaseTag ctx = Normal None) /\
  (forall t, isPreRelease ctx = true -> releaseTagName ctx = JsString t ->
   coerce_string t = None -> getReleaseTag ctx = Normal None) /\
  (forall t, isPreRelease ctx = false -> releaseTagName ctx = JsString t ->
   parse_string t = None -> getReleaseTag ctx = Normal None) /\
  (ref (payload ctx) = None -> getPushRefVersion preferredRef ctx = Normal None) /\
  (regExpLiteral preferredRef = true ->
   forall r, ref (payload ctx) = Some r ->
   parse_string (replacePrefix ("refs/" ++ preferredRef ++ "/") r) = None ->
   getPushRefVersion preferredRef ctx = Normal None).
Proof.
  split; [|split; [|split; [|split]]].
  - apply getReleaseTag_no_tag.
  - intros t Hp Ht Hc. rewrite (getReleaseTag_tag ctx t Ht), Hp. now f_equal.
  - intros t Hp Ht Hc. rewrite (getReleaseTag_tag ctx t Ht), Hp. now f_equal.
  - apply getPushRefVersion_no_ref.
  - intros _ r Hr Hn.
    rewrite (getPushRefVersion_ref preferredRef ctx r Hr). now f_equal.
Qed.

End ResolverFacts.

Lemma coercion_iff_prerelease_witness :
  @getReleaseTag reference_imports (release_event (Some "v3.1-beta") true)
  = Normal (Some (mkSemVer 3 1 0 [] [])) /\
  @getReleaseTag reference_imports (release_event (Some "v3.1-beta") false)
  = Normal None /\
  @getReleaseTag reference_imports (release_event (Some "2.0.0") false)
  = Normal (Some (mkSemVer 2 0 0 [] [])) /\
  @getPushRefVersion reference_imports "tags" (push_event (Some "refs/tags/v1.2.3") true)
  = Normal (Some (mkSemVer 1 2 3 [] [])).
Proof.
  split; [|split; [|split]].
  - exact (proj1 (proj2 (proj2 (@coercion_iff_prerelease reference_imports "tags"
             (release_event (Some "v3.1-beta") true))))
             "v3.1-beta" eq_refl).
  - exact (proj1 (proj2 (proj2 (@coercion_iff_prerelease reference_imports "tags"
             (release_event (Some "v3.1-beta") false))))
             "v3.1-beta" eq_refl).
  - exact (proj1 (proj2 (@coercion_iff_prerelease reference_imports "tags"
             (release_event (Some "2.0.0") false))) eq_refl).
  - exact (proj2 (proj2 (proj2 (@coercion_iff_prerelease reference_imports "tags"
             (push_event (Some "refs/tags/v1.2.3") true))))
             eq_refl "refs/tags/v1.2.3" eq_refl).
Defined.

(** C4, as stated, fails: a release without a tag name and a push without a
    ref make the resolvers return [null]; no error is raised. *)
Lemma missing_context_is_not_fatal :
  @getReleaseTag reference_imports (release_event None false) = Normal None /\
  @getReleaseTag reference_imports (release_event None true) = Normal None /\
  @getPushRefVersion reference_imports "tags" (push_event None true) = Normal None /\
  ~ (exists e, @getReleaseTag reference_imports (release_event None false) = Throw e) /\
  ~ (exists e, @getPushRefVersion reference_imports "tags" (push_event None true) = Throw e).
Proof.
  repeat split; intros [e He]; discriminate He.
Qed.

Lemma resolvers_never_throw_witness :
  releaseTagName (release_event None true) = undefined /\
  @getReleaseTag reference_imports (release_event None true) = Normal None /\
  ref (payload (push_event None true)) = None /\
  @getPushRefVersion reference_imports "heads" (push_event None true) = Normal None /\
  regExpLiteral "heads" = true /\
  exists v,
    @getPushRefVersion reference_imports "heads"
      (push_event (Some "refs/heads/main") true) = Normal v.
Proof.
  split; [reflexivity|]. split.
  - apply (proj1 (proj2 (proj2 (@resolvers_never_throw reference_imports "heads"
             (release_event None true))))).
    reflexivity.
  - split; [reflexivity|]. split.
    + apply (proj2 (proj2 (proj2 (@resolvers_never_throw reference_imports "heads"
               (push_event None true))))).
      reflexivity.
    + split; [reflexivity|].
      apply (proj1 (proj2 (@resolvers_never_throw reference_imports "heads"
               (push_event (Some "refs/heads/main") true)))).
      reflexivity.
Defined.

Lemma resolvers_return_null_witness :
  @getReleaseTag reference_imports (release_event None false) = Normal None /\
  (@coerce_string reference_imports "nightly" = None /\
   @getReleaseTag reference_imports (release_event (Some "nightly") true) = Normal None) /\
  (@parse_string reference_imports "v2" = None /\
   @getReleaseTag reference_imports (release_event (Some "v2") false) = Normal None) /\
  @getPushRefVersion reference_imports "tags" (push_event None true) = Normal None /\
  (@parse_string reference_imports (replacePrefix "refs/tags/" "refs/tags/latest") = None /\
   @getPushRefVersion reference_imports "tags" (push_event (Some "refs/tags/latest") true)
   = Normal None).
Proof.
  split; [|split; [|split; [|split]]].
  - apply (proj1 (@resolvers_return_null reference_imports "tags"
             (release_event None false))).
    reflexivity.
  - split; [reflexivity|].
    apply (proj1 (proj2 (@resolvers_return_null reference_imports "tags"
             (release_event (Some "nightly") true))) "nightly"); reflexivity.
  - split; [reflexivity|].
    apply (proj1 (proj2 (proj2 (@resolvers_return_null reference_imports "tags"
             (release_event (Some "v2") false)))) "v2"); reflexivity.
  - apply (proj1 (proj2 (proj2 (proj2 (@resolvers_return_null reference_imports "tags"
             (push_event None true)))))).
    reflexivity.
  - split; [reflexivity|].
    apply (proj2 (proj2 (proj2 (proj2 (@resolvers_return_null reference_imports "tags"
             (push_event (Some "refs/tags/latest") true))))) eq_refl
             "refs/tags/latest");
      reflexivity.
Defined.

(** ** Traces *)

Lemma flat_map_nothing {A B : Type} (f : A -> list B) (l : list A) :
  (forall x, In x l -> f x = []) -> flat_map f l = [].
Proof.
  induction l as [|x l IH]; intros Hf; [reflexivity|].
  cbn. rewrite (Hf x (or_introl eq_refl)). apply IH.
  intros y Hy. apply Hf. now right.
Qed.

Lemma mutations_app (t u : list Event) :
  mutations (t ++ u) = (mutations t ++ mutations u)%list.
Proof.
  induction t as [|e t IH]; [reflexivity|].
  destruct e; simpl; rewrite IH; reflexivity.
Qed.

Lemma queries_app (t u : list Event) :
  queries (t ++ u) = (queries t ++ queries u)%list.
Proof.
  induction t as [|e t IH]; [reflexivity|].
  destruct e; simpl; rewrite IH; reflexivity.
Qed.

Lemma pagesOf_app (t u : list Event) :
  pagesOf (t ++ u) = (pagesOf t ++ pagesOf u)%list.
Proof.
  induction t as [|e t IH]; [reflexivity|].
  destruct e as [| | |q v [p|err]| | |]; simpl; rewrite IH; reflexivity.
Qed.

Lemma yields_app (t u : list Event) :
  yields (t ++ u) = (yields t ++ yields u)%list.
Proof.
  induction t as [|e t IH]; [reflexivity|].
  destruct e; simpl; rewrite IH; reflexivity.
Qed.

Lemma rejections_app (t u : list Event) :
  rejections (t ++ u) = (rejections t ++ rejections u)%list.
Proof.
  induction t as [|e t IH]; [reflexivity|].
  destruct e as [p [a|err]|p [a|err]|p [a|err]|q v [a|err]| | |];
    simpl; rewrite IH; reflexivity.
Qed.

(** ** The upsert *)

Section Upsert.
Context {R : Type}.
Variable github : GitHub R.
Variable env : Env.

Lemma findMatchingRef_existsb (refName : string) (matchingRefs : list RefObj) :
  match findMatchingRef refName matchingRefs with
  | Some _ => existsb (refMatches refName) matchingRefs = true
  | None => existsb (refMatches refName) matchingRefs = false
  end.
Proof.
  unfold findMatchingRef, refMatches.
  induction matchingRefs as [|o l IH]; simpl; [reflexivity|].
  destruct (endsWith (refObj_ref o) refName); simpl; [reflexivity|exact IH].
Qed.

(** The requests of [createRef], case by case. *)
Lemma createRef_requests (refName : string) (r : R) :
  let p := listMatchingRefsParams env refName in
  match git_listMatchingRefs github p r with
  | (Normal matchingRefs, r1) =>
      if existsb (refMatches refName) matchingRefs
      then requests (trace (createRef github env refName r))
           = [ListMatchingRefs p (Normal matchingRefs);
              UpdateRef (updateRefParams env refName)
                (fst (git_updateRef github (updateRefParams env refName) r1))]
      else requests (trace (createRef github env refName r))
           = [ListMatchingRefs p (Normal matchingRefs);
              CreateRef (createRefParams env refName)
                (fst (git_createRef github (createRefParams env refName) r1))]
  | (Throw e, _) =>
      requests (trace (createRef github env refName r)) = [ListMatchingRefs p (Throw e)]
  end.
Proof.
  cbv zeta. unfold createRef, bind, await, core_info, core_debug, emit, ret.
  destruct (git_listMatchingRefs github (listMatchingRefsParams env refName) r)
    as [[matchingRefs|e] r1]; [|reflexivity].
  pose proof (findMatchingRef_existsb refName matchingRefs) as Hfind.
  destruct (findMatchingRef refName matchingRefs); rewrite Hfind.
  - destruct (git_updateRef github (updateRefParams env refName) r1) as [[j|e] r2];
      [destruct (isDebug env)|]; reflexivity.
  - destruct (git_createRef github (createRefParams env refName) r1) as [[j|e] r2];
      [destruct (isDebug env)|]; reflexivity.
Qed.

Lemma mutations_requests (t : list Event) : mutations (requests t) = mutations t.
Proof.
  induction t as [|e t IH]; [reflexivity|].
  destruct e; simpl; rewrite ?IH; reflexivity.
Qed.

Lemma filter_requests (f : Event -> bool) (t : list Event) :
  (forall e, f e = true -> isRequest e = true) ->
  filter f (requests t) = filter f t.
Proof.
  intros Hf. unfold requests.
  induction t as [|e t IH]; [reflexivity|].
  simpl. destruct (isRequest e) eqn:He; simpl; rewrite IH.
  - reflexivity.
  - destruct (f e) eqn:Hfe; [|reflexivity].
    apply Hf in Hfe. congruence.
Qed.

Lemma isUpdate_isRequest (e : Event) : isUpdate e = true -> isRequest e = true.
Proof. destruct e; simpl; congruence. Qed.

Lemma isCreate_isRequest (e : Event) : isCreate e = true -> isRequest e = true.
Proof. destruct e; simpl; congruence. Qed.

(** The mutation of [createRef], as a function of the answer to the query. *)
Lemma createRef_mutations (refName : string) (r : R) :
  mutations (trace (createRef github env refName r))
  = match refExists refName
            (fst (git_listMatchingRefs github (listMatchingRefsParams env refName) r)) with
    | Some true => [DoUpdate (updateRefParams env refName)]
    | Some false => [DoCreate (createRefParams env refName)]
    | None => []
    end.
Proof.
  pose proof (createRef_requests refName r) as Hr. cbv zeta in Hr.
  destruct (git_listMatchingRefs github (listMatchingRefsParams env refName) r)
    as [[matchingRefs|e] r1]; cbn [fst refExists].
  - rewrite <- mutations_requests.
    destruct (existsb (refMatches refName) matchingRefs); rewrite Hr; reflexivity.
  - rewrite <- mutations_requests, Hr. reflexivity.
Qed.

(** C1: [createRef] first asks for the matching refs and then, when that
    request is answered, issues exactly one mutation: an update of
    [refName] with [force] set, and no create, when some returned ref ends
    with [refName]; a create of [refs/refName], and no update, otherwise.
    When the first request is rejected nothing else is requested. *)
Theorem createRef_single_mutation (refName : string) (r : R) :
  let run := createRef github env refName r in
  let p := listMatchingRefsParams env refName in
  match fst (git_listMatchingRefs github p r) with
  | Normal matchingRefs =>
      if existsb (refMatches refName) matchingRefs
      then (exists answer,
              requests (trace run)
              = [ListMatchingRefs p (Normal matchingRefs);
                 UpdateRef {| ur_owner := owner (context_repo (context env));
                              ur_repo := repo (context_repo (context env));
                              ur_force := true;
                              ur_ref := refName;
                              ur_sha := GITHUB_SHA env |} answer]) /\
           length (filter isUpdate (trace run)) = 1 /\
           length (filter isCreate (trace run)) = 0
      else (exists answer,
              requests (trace run)
              = [ListMatchingRefs p (Normal matchingRefs);
                 CreateRef {| cr_owner := owner (context_repo (context env));
                              cr_repo := repo (context_repo (context env));
                              cr_ref := "refs/" ++ refName;
                              cr_sha := GITHUB_SHA env |} answer]) /\
           length (filter isUpdate (trace run)) = 0 /\
           length (filter isCreate (trace run)) = 1
  | Throw e => requests (trace run) = [ListMatchingRefs p (Throw e)]
  end.
Proof.
  cbv zeta. pose proof (createRef_requests refName r) as Hr. cbv zeta in Hr.
  destruct (git_listMatchingRefs github (listMatchingRefsParams env refName) r)
    as [[matchingRefs|e] r1]; simpl; [|exact Hr].
  rewrite <- (filter_requests isUpdate _ isUpdate_isRequest).
  rewrite <- (filter_requests isCreate _ isCreate_isRequest).
  destruct (existsb (refMatches refName) matchingRefs); rewrite Hr.
  - split; [eexists; reflexivity|]. split; reflexivity.
  - split; [eexists; reflexivity|]. split; reflexivity.
Qed.

End Upsert.

Example createRef_updates_existing :
  createRef memory_github upstream_env "tags/v1" sample_store
  = (Returned tt,
     {| store_refs := [("refs/tags/v1", "c0ffee"); ("refs/tags/v1.0.0", "aaa")];
        store_pages := two_pages |},
     [ListMatchingRefs {| lm_owner := "octo"; lm_repo := "tagger"; lm_ref := "tags/v1" |}
        (Normal [{| refObj_ref := "refs/tags/v1" |}; {| refObj_ref := "refs/tags/v1.0.0" |}]);
      Info "Updating ref: tags/v1 to: c0ffee";
      UpdateRef {| ur_owner := "octo"; ur_repo := "tagger"; ur_force := true;
                   ur_ref := "tags/v1"; ur_sha := Some "c0ffee" |}
        (Normal "refs/tags/v1")]).
Proof. reflexivity. Qed.

Example createRef_creates_missing :
  createRef memory_github upstream_env "tags/v2" sample_store
  = (Returned tt,
     {| store_refs := [("refs/tags/v2", "c0ffee"); ("refs/tags/v1", "old");
                       ("refs/tags/v1.0.0", "aaa")];
        store_pages := two_pages |},
     [ListMatchingRefs {| lm_owner := "octo"; lm_repo := "tagger"; lm_ref := "tags/v2" |}
        (Normal []);
      Info "Creating ref: refs/tags/v2 for: c0ffee";
      CreateRef {| cr_owner := "octo"; cr_repo := "tagger"; cr_ref := "refs/tags/v2";
                   cr_sha := Some "c0ffee" |}
        (Normal "refs/tags/v2")]).
Proof. reflexivity. Qed.

(** C5, as the code has it: two runs of [createRef] with the same ref name,
    the same [GITHUB_SHA], the same repository in [context.repo] and the
    same answer to whether a returned ref ends with the name issue the same
    mutation, it points the ref at [GITHUB_SHA], and it is a single one when
    the query was answered; the remotes, their other refs, the event and
    the debug flag may differ. *)
Theorem createRef_same_mutation {R1 R2 : Type} (github1 : GitHub R1)
  (github2 : GitHub R2) (env1 env2 : Env) (refName : string) (r1 : R1) (r2 : R2) :
  GITHUB_SHA env1 = GITHUB_SHA env2 ->
  context_repo (context env1) = context_repo (context env2) ->
  refExists refName
    (fst (git_listMatchingRefs github1 (listMatchingRefsParams env1 refName) r1))
  = refExists refName
      (fst (git_listMatchingRefs github2 (listMatchingRefsParams env2 refName) r2)) ->
  mutations (trace (createRef github1 env1 refName r1))
  = mutations (trace (createRef github2 env2 refName r2)) /\
  Forall (fun m => target m = GITHUB_SHA env1)
         (mutations (trace (createRef github1 env1 refName r1))) /\
  (refExists refName
     (fst (git_listMatchingRefs github1 (listMatchingRefsParams env1 refName) r1))
   <> None ->
   length (mutations (trace (createRef github1 env1 refName r1))) = 1).
Proof.
  intros Hsha Hrepo Hex.
  rewrite (createRef_mutations github1 env1 refName r1).
  rewrite (createRef_mutations github2 env2 refName r2).
  rewrite Hex. unfold updateRefParams, createRefParams. rewrite Hsha, Hrepo.
  destruct (refExists refName
              (fst (git_listMatchingRefs github2 (listMatchingRefsParams env2 refName) r2)))
    as [[|]|].
  - split; [reflexivity|]. split; [|reflexivity].
    constructor; [reflexivity|constructor].
  - split; [reflexivity|]. split; [|reflexivity].
    constructor; [reflexivity|constructor].
  - split; [reflexivity|]. split; [constructor|]. intros H. now elim H.
Qed.

Lemma createRef_same_mutation_witness :
  mutations (trace (createRef memory_github upstream_env "tags/v1" sample_store))
  = mutations (trace (createRef memory_github
                        (sample_env (release_event (Some "v1.0.1") false))
                        "tags/v1" other_store)) /\
  Forall (fun m => target m = Some "c0ffee")
         (mutations (trace (createRef memory_github upstream_env "tags/v1" sample_store))) /\
  (refExists "tags/v1"
     (fst (git_listMatchingRefs memory_github
             (listMatchingRefsParams upstream_env "tags/v1") sample_store))
   <> None ->
   length (mutations (trace (createRef memory_github upstream_env "tags/v1" sample_store)))
   = 1).
Proof.
  apply (createRef_same_mutation memory_github memory_github upstream_env
           (sample_env (release_event (Some "v1.0.1") false)) "tags/v1"
           sample_store other_store);
    reflexivity.
Defined.

(** C5, as stated, fails: the same ref name, the same commit and the same
    answer from the remote, in two repositories, give two different
    mutations, since owner and repository are read from the ambient
    [context]. *)
Lemma createRef_reads_context_repo :
  GITHUB_SHA upstream_env = GITHUB_SHA fork_env /\
  fst (git_listMatchingRefs memory_github
         (listMatchingRefsParams upstream_env "tags/v1") sample_store)
  = fst (git_listMatchingRefs memory_github
           (listMatchingRefsParams fork_env "tags/v1") sample_store) /\
  mutations (trace (createRef memory_github upstream_env "tags/v1" sample_store))
  = [DoUpdate {| ur_owner := "octo"; ur_repo := "tagger"; ur_force := true;
                 ur_ref := "tags/v1"; ur_sha := Some "c0ffee" |}] /\
  mutations (trace (createRef memory_github fork_env "tags/v1" sample_store))
  = [DoUpdate {| ur_owner := "fork"; ur_repo := "tagger"; ur_force := true;
                 ur_ref := "tags/v1"; ur_sha := Some "c0ffee" |}] /\
  mutations (trace (createRef memory_github upstream_env "tags/v1" sample_store))
  <> mutations (trace (createRef memory_github fork_env "tags/v1" sample_store)).
Proof.
  split; [reflexivity|]. split; [reflexivity|].
  split; [reflexivity|]. split; [reflexivity|].
  intros H. vm_compute in H. discriminate H.
Qed.

(** ** The enumerator *)

Section Enumerator.
Context {imports : Imports} {R : Type}.
Variable github : GitHub R.
Variable env : Env.
Variable preferredRef : string.

Lemma forOf_visitRef (nodes : list RefNode) (r : R) :
  forOf nodes (visitRef env) r = (Returned tt, r, scanTrace env nodes).
Proof.
  induction nodes as [|node nodes IH]; [reflexivity|].
  cbn [forOf scanTrace flat_map]. fold (scanTrace env nodes).
  unfold bind at 1. unfold visitRef at 1, visitTrace at 1.
  destruct (semverParse (JsString (ref_name node))) as [v|];
    destruct (isDebug env); cbn; rewrite IH; reflexivity.
Qed.

Lemma queries_scanTrace (nodes : list RefNode) : queries (scanTrace env nodes) = [].
Proof.
  induction nodes as [|node nodes IH]; [reflexivity|].
  cbn [scanTrace flat_map]. rewrite queries_app. fold (scanTrace env nodes).
  rewrite IH. unfold visitTrace.
  destruct (semverParse (JsString (ref_name node))); destruct (isDebug env); reflexivity.
Qed.

Lemma pagesOf_scanTrace (nodes : list RefNode) : pagesOf (scanTrace env nodes) = [].
Proof.
  induction nodes as [|node nodes IH]; [reflexivity|].
  cbn [scanTrace flat_map]. rewrite pagesOf_app. fold (scanTrace env nodes).
  rewrite IH. unfold visitTrace.
  destruct (semverParse (JsString (ref_name node))); destruct (isDebug env); reflexivity.
Qed.

Lemma rejections_scanTrace (nodes : list RefNode) : rejections (scanTrace env nodes) = [].
Proof.
  induction nodes as [|node nodes IH]; [reflexivity|].
  cbn [scanTrace flat_map]. rewrite rejections_app. fold (scanTrace env nodes).
  rewrite IH. unfold visitTrace.
  destruct (semverParse (JsString (ref_name node))); destruct (isDebug env); reflexivity.
Qed.

Lemma yields_scanTrace (nodes : list RefNode) :
  yields (scanTrace env nodes) = flat_map parsedRef nodes.
Proof.
  induction nodes as [|node nodes IH]; [reflexivity|].
  cbn [scanTrace flat_map]. rewrite yields_app. fold (scanTrace env nodes).
  rewrite IH. f_equal. unfold visitTrace, parsedRef.
  destruct (semverParse (JsString (ref_name node))); destruct (isDebug env); reflexivity.
Qed.

(** One turn of the pagination loop. *)
Lemma listAllRefs_from_step (fuel : nat) (nextPage : option string) (r : R) :
  listAllRefs_from github env (S fuel) preferredRef nextPage r
  = match graphql github queryAllRefs (queryVariables env preferredRef nextPage) r with
    | (Normal p, r1) =>
        let rest :=
          if hasNextPage (pageInfo (refs p))
          then listAllRefs_from github env fuel preferredRef
                 (Some (endCursor (pageInfo (refs p)))) r1
          else (Returned tt, r1, []) in
        (outcome rest, final rest,
         Graphql queryAllRefs (queryVariables env preferredRef nextPage) (Normal p)
         :: scanTrace env (refsList (refs p)) ++ trace rest)%list
    | (Throw e, r1) =>
        (Thrown e, r1,
         [Graphql queryAllRefs (queryVariables env preferredRef nextPage) (Throw e)])
    end.
Proof.
  cbn [listAllRefs_from]. unfold bind at 1, await.
  destruct (graphql github queryAllRefs (queryVariables env preferredRef nextPage) r)
    as [[p|e] r1]; [|reflexivity].
  unfold bind. rewrite forOf_visitRef.
  destruct (hasNextPage (pageInfo (refs p))).
  - destruct (listAllRefs_from github env fuel preferredRef
                (Some (endCursor (pageInfo (refs p)))) r1) as [[o r2] t].
    reflexivity.
  - reflexivity.
Qed.

Lemma listAllRefs_from_wellFormed (fuel : nat) (nextPage : option string) (r : R) :
  wellFormedRun (listAllRefs_from github env fuel preferredRef nextPage r).
Proof.
  revert nextPage r. induction fuel as [|fuel IH]; intros nextPage r.
  - split; reflexivity.
  - rewrite listAllRefs_from_step.
    destruct (graphql github queryAllRefs (queryVariables env preferredRef nextPage) r)
      as [[p|e] r1]; [|split; reflexivity].
    destruct (hasNextPage (pageInfo (refs p))).
    + destruct (IH (Some (endCursor (pageInfo (refs p)))) r1) as [Hy Hr].
      destruct (listAllRefs_from github env fuel preferredRef
                  (Some (endCursor (pageInfo (refs p)))) r1) as [[o r2] t].
      unfold wellFormedRun, trace, outcome in *. cbn [fst snd] in *.
      split.
      * cbn [yields pagesOf flat_map].
        rewrite yields_app, pagesOf_app, yields_scanTrace, pagesOf_scanTrace, Hy.
        reflexivity.
      * cbn [rejections]. rewrite rejections_app, rejections_scanTrace.
        exact Hr.
    + unfold wellFormedRun, trace, outcome. cbn [fst snd].
      split.
      * cbn [yields pagesOf flat_map].
        rewrite yields_app, pagesOf_app, yields_scanTrace, pagesOf_scanTrace.
        reflexivity.
      * cbn [rejections]. rewrite rejections_app, rejections_scanTrace.
        reflexivity.
Qed.

Lemma parsedRefs_sound (pages : list GraphQlQueryRepository) :
  Forall (fun item =>
            exists p node,
              In p pages /\ In node (refsList (refs p)) /\
              semverParse (JsString (ref_name node)) = Some (fst item) /\
              ref_object_shaId node = snd item)
         (flat_map parsedRefs pages).
Proof.
  apply Forall_forall. intros item Hin.
  apply in_flat_map in Hin as (p & Hp & Hin).
  apply in_flat_map in Hin as (node & Hnode & Hin).
  exists p, node. unfold parsedRef in Hin.
  destruct (semverParse (JsString (ref_name node))) as [v|] eqn:Hv; [|contradiction].
  destruct Hin as [<-|[]]. auto.
Qed.

(** C2: whatever pages the remote returns, the pairs [listAllRefs] yields
    are exactly the entries of those pages whose name parses, each with the
    parsed version and the entry's commit; an entry that does not parse
    yields nothing, and the run throws only the rejection of a request. *)
Theorem listAllRefs_yields_parsed (fuel : nat) (r : R) :
  let run := listAllRefs github env fuel preferredRef r in
  yields (trace run) = flat_map parsedRefs (pagesOf (trace run)) /\
  Forall (fun item =>
            exists p node,
              In p (pagesOf (trace run)) /\ In node (refsList (refs p)) /\
              semverParse (JsString (ref_name node)) = Some (fst item) /\
              ref_object_shaId node = snd item)
         (yields (trace run)) /\
  match outcome run with
  | Thrown e => rejections (trace run) = [e]
  | Returned _ | OutOfFuel => rejections (trace run) = []
  end.
Proof.
  cbv zeta. unfold listAllRefs.
  destruct (listAllRefs_from_wellFormed fuel None r) as [Hy Hr].
  split; [exact Hy|]. split; [|exact Hr].
  rewrite Hy. apply parsedRefs_sound.
Qed.

(** A remote that serves [pages] is enumerated page by page, and leaves
    the remote in one state whatever the fuel. *)
Lemma listAllRefs_from_served (pages : list GraphQlQueryRepository) :
  forall (nextPage : option string) (r : R),
    serves github env preferredRef pages nextPage r ->
    exists r',
      forall fuel, length pages <= fuel ->
        listAllRefs_from github env fuel preferredRef nextPage r
        = (Returned tt, r', enumerationTrace env preferredRef nextPage pages).
Proof.
  induction pages as [|p rest IH]; intros nextPage r Hs; [contradiction|].
  destruct Hs as (r1 & Hq & Hrest).
  destruct rest as [|p' rest'].
  - exists r1. intros fuel Hfuel.
    destruct fuel as [|fuel]; [cbn in Hfuel; lia|].
    rewrite listAllRefs_from_step, Hq, Hrest. cbn. reflexivity.
  - destruct Hrest as [Hmore Hrest].
    destruct (IH _ _ Hrest) as (r' & Hrun).
    exists r'. intros fuel Hfuel.
    destruct fuel as [|fuel]; [cbn in Hfuel; lia|].
    cbn [length] in Hfuel. apply le_S_n in Hfuel.
    rewrite listAllRefs_from_step, Hq, Hmore, (Hrun fuel Hfuel). reflexivity.
Qed.

Lemma queries_enumerationTrace (nextPage : option string)
  (pages : list GraphQlQueryRepository) :
  queries (enumerationTrace env preferredRef nextPage pages)
  = map (queryVariables env preferredRef) (cursorsFrom nextPage pages).
Proof.
  revert nextPage. induction pages as [|p rest IH]; intros nextPage; [reflexivity|].
  cbn [enumerationTrace queries cursorsFrom map].
  rewrite queries_app, queries_scanTrace, IH. reflexivity.
Qed.

Lemma pagesOf_enumerationTrace (nextPage : option string)
  (pages : list GraphQlQueryRepository) :
  pagesOf (enumerationTrace env preferredRef nextPage pages) = pages.
Proof.
  revert nextPage. induction pages as [|p rest IH]; intros nextPage; [reflexivity|].
  cbn [enumerationTrace pagesOf].
  rewrite pagesOf_app, pagesOf_scanTrace, IH. reflexivity.
Qed.

Lemma yields_enumerationTrace (nextPage : option string)
  (pages : list GraphQlQueryRepository) :
  yields (enumerationTrace env preferredRef nextPage pages) = flat_map parsedRefs pages.
Proof.
  revert nextPage. induction pages as [|p rest IH]; intros nextPage; [reflexivity|].
  cbn [enumerationTrace yields flat_map].
  rewrite yields_app, yields_scanTrace, IH. reflexivity.
Qed.

Lemma cursorsFrom_cursorsFor (p : GraphQlQueryRepository)
  (rest : list GraphQlQueryRepository) :
  cursorsFrom None (p :: rest) = cursorsFor (p :: rest).
Proof.
  unfold cursorsFor. generalize (@None string) as c. revert p.
  induction rest as [|p' rest IH]; intros p c; [reflexivity|].
  cbn [cursorsFrom] in *. f_equal.
  rewrite (IH p' (Some (endCursor (pageInfo (refs p))))).
  reflexivity.
Qed.

Lemma cursorsFrom_length (nextPage : option string)
  (pages : list GraphQlQueryRepository) :
  length (cursorsFrom nextPage pages) = length pages.
Proof.
  revert nextPage. induction pages as [|p rest IH]; intros nextPage; [reflexivity|].
  cbn. now rewrite IH.
Qed.

(** C3: when the remote serves N pages, [listAllRefs] sends exactly N page
    queries, the first with no cursor and each later one with the end
    cursor of the page before, and yields the parsed entries of every page
    in the order the pages came; the whole trace is that of
    [enumerationTrace]. It holds for every N >= 1, so for N > 1. *)
Theorem listAllRefs_pages (pages : list GraphQlQueryRepository) (r : R) (fuel : nat) :
  serves github env preferredRef pages None r ->
  length pages <= fuel ->
  let run := listAllRefs github env fuel preferredRef r in
  outcome run = Returned tt /\
  trace run = enumerationTrace env preferredRef None pages /\
  length (queries (trace run)) = length pages /\
  queries (trace run) = map (queryVariables env preferredRef) (cursorsFor pages) /\
  pagesOf (trace run) = pages /\
  yields (trace run) = flat_map parsedRefs pages.
Proof.
  intros Hs Hfuel. cbv zeta. unfold listAllRefs.
  destruct (listAllRefs_from_served pages None r Hs) as (r' & Hrun).
  rewrite (Hrun fuel Hfuel). unfold outcome, trace. cbn [fst snd].
  rewrite queries_enumerationTrace, pagesOf_enumerationTrace, yields_enumerationTrace.
  rewrite length_map, cursorsFrom_length.
  destruct pages as [|p rest]; [contradiction|].
  rewrite cursorsFrom_cursorsFor.
  repeat split; reflexivity.
Qed.

(** C9: when the answers of the remote reach a page that reports no next
    page, the enumeration returns: there is a number of turns from which on
    the loop has exited, with the same result whatever the fuel; and when
    no entry of any page parses, nothing is yielded. *)
Theorem listAllRefs_terminates (pages : list GraphQlQueryRepository) (r : R) :
  serves github env preferredRef pages None r ->
  exists n,
    forall fuel, n <= fuel ->
      outcome (listAllRefs github env fuel preferredRef r) = Returned tt /\
      listAllRefs github env fuel preferredRef r
      = listAllRefs github env n preferredRef r /\
      ((forall p node, In p pages -> In node (refsList (refs p)) ->
                       semverParse (JsString (ref_name node)) = None) ->
       yields (trace (listAllRefs github env fuel preferredRef r)) = []).
Proof.
  intros Hs. exists (length pages). intros fuel Hfuel.
  unfold listAllRefs.
  destruct (listAllRefs_from_served pages None r Hs) as (r' & Hrun).
  rewrite (Hrun fuel Hfuel), (Hrun (length pages) (le_n _)).
  split; [reflexivity|]. split; [reflexivity|].
  intros Hnone. unfold trace. cbn [snd].
  rewrite yields_enumerationTrace.
  apply flat_map_nothing. intros p Hp.
  apply flat_map_nothing. intros node Hnode.
  unfold parsedRef. now rewrite (Hnone p node Hp Hnode).
Qed.

End Enumerator.

Lemma sample_store_serves :
  @serves reference_imports Store memory_github upstream_env "tags" two_pages None
    sample_store.
Proof.
  cbn. eexists. split; [reflexivity|]. split; [reflexivity|].
  eexists. split; reflexivity.
Qed.

Lemma unversioned_store_serves :
  @serves reference_imports Store memory_github upstream_env "tags" unversioned_pages
    None unversioned_store.
Proof.
  cbn. eexists. split; [reflexivity|]. split; [reflexivity|].
  eexists. split; [reflexivity|]. split; [reflexivity|].
  eexists. split; reflexivity.
Qed.

Lemma listAllRefs_pages_witness :
  outcome (@listAllRefs reference_imports Store memory_github upstream_env 2 "tags"
             sample_store) = Returned tt /\
  trace (@listAllRefs reference_imports Store memory_github upstream_env 2 "tags"
           sample_store)
  = @enumerationTrace reference_imports upstream_env "tags" None two_pages /\
  length (queries (trace (@listAllRefs reference_imports Store memory_github
                            upstream_env 2 "tags" sample_store))) = 2 /\
  queries (trace (@listAllRefs reference_imports Store memory_github upstream_env 2
                    "tags" sample_store))
  = [ {| repoName := "tagger"; repoOwner := "octo"; majorRef := "refs/tags/";
         pagination := None |};
      {| repoName := "tagger"; repoOwner := "octo"; majorRef := "refs/tags/";
         pagination := Some "abc" |} ] /\
  pagesOf (trace (@listAllRefs reference_imports Store memory_github upstream_env 2
                    "tags" sample_store)) = two_pages /\
  yields (trace (@listAllRefs reference_imports Store memory_github upstream_env 2
                   "tags" sample_store))
  = [(mkSemVer 1 0 0 [] [], "aaa")].
Proof.
  apply (@listAllRefs_pages reference_imports Store memory_github upstream_env "tags"
           two_pages sample_store 2).
  - exact sample_store_serves.
  - apply le_n.
Defined.

Lemma listAllRefs_terminates_witness :
  exists n,
    outcome (@listAllRefs reference_imports Store memory_github upstream_env n "tags"
               unversioned_store) = Returned tt /\
    yields (trace (@listAllRefs reference_imports Store memory_github upstream_env n
                     "tags" unversioned_store)) = [].
Proof.
  destruct (@listAllRefs_terminates reference_imports Store memory_github upstream_env
              "tags" unversioned_pages unversioned_store unversioned_store_serves)
    as [n Hn].
  exists n. destruct (Hn n (le_n n)) as (Hreturned & _ & Hnone).
  split; [exact Hreturned|]. apply Hnone.
  intros p node Hp Hnode.
  repeat (destruct Hp as [<-|Hp]; [repeat (destruct Hnode as [<-|Hnode]; [reflexivity|]);
                                   destruct Hnode|]).
  destruct Hp.
Defined.

(** With fuel for one page only, the run over two pages stops short after
    the first page's entries. *)
Example listAllRefs_out_of_fuel :
  outcome (@listAllRefs reference_imports Store memory_github upstream_env 1 "tags"
             sample_store) = OutOfFuel /\
  yields (trace (@listAllRefs reference_imports Store memory_github upstream_env 1
                   "tags" sample_store))
  = [(mkSemVer 1 0 0 [] [], "aaa")].
Proof. split; reflexivity. Qed.

(** A rejected page query ends the enumeration with that rejection. *)
Example listAllRefs_rejected :
  @listAllRefs reference_imports Store memory_github upstream_env 3 "tags" other_store
  = (Thrown (RequestError "no response"), other_store,
     [Graphql (@queryAllRefs reference_imports)
        {| repoName := "tagger"; repoOwner := "octo"; majorRef := "refs/tags/";
           pagination := None |}
        (Throw (RequestError "no response"))]).
Proof. reflexivity. Qed.

(** * Further properties *)

(** ** Strings *)

Lemma string_app_assoc (a b c : string) : (a ++ b) ++ c = a ++ b ++ c.
Proof.
  induction a as [|x a IH]; [reflexivity|]. cbn. now rewrite IH.
Qed.

Lemma string_length_app (a b : string) :
  String.length (a ++ b) = String.length a + String.length b.
Proof.
  induction a as [|x a IH]; [reflexivity|]. cbn. now rewrite IH.
Qed.

Lemma substring_all (s : string) : substring 0 (String.length s) s = s.
Proof.
  induction s as [|c s IH]; [reflexivity|]. cbn. now rewrite IH.
Qed.

Lemma substring_after (u s : string) (n : nat) :
  substring (String.length u) n (u ++ s) = substring 0 n s.
Proof.
  induction u as [|c u IH]; [reflexivity|]. cbn. exact IH.
Qed.

Lemma substring_split (s : string) :
  forall k, k <= String.length s ->
    s = substring 0 k s ++ substring k (String.length s - k) s.
Proof.
  induction s as [|c s IH]; intros k Hk.
  - destruct k; reflexivity.
  - destruct k as [|k].
    + cbn. now rewrite substring_all.
    + cbn in Hk. apply le_S_n in Hk. cbn. f_equal. apply IH. exact Hk.
Qed.

Lemma prefix_app (p s : string) : String.prefix p (p ++ s) = true.
Proof.
  induction p as [|c p IH]; [destruct s; reflexivity|].
  cbn. destruct (ascii_dec c c) as [_|n]; [exact IH|now elim n].
Qed.

Lemma replacePrefix_app (p s : string) : replacePrefix p (p ++ s) = s.
Proof.
  unfold replacePrefix. rewrite prefix_app, string_length_app.
  replace (String.length p + String.length s - String.length p)
    with (String.length s) by lia.
  rewrite substring_after. apply substring_all.
Qed.

Lemma replacePrefix_other (p s : string) :
  startsWith s p = false -> replacePrefix p s = s.
Proof.
  unfold startsWith, replacePrefix. now intros ->.
Qed.

Lemma endsWith_app (u t : string) : endsWith (u ++ t) t = true.
Proof.
  unfold endsWith. rewrite string_length_app.
  replace (String.length u + String.length t - String.length t)
    with (String.length u) by lia.
  rewrite substring_after, substring_all, String.eqb_refl.
  rewrite andb_true_r. apply Nat.leb_le. lia.
Qed.

Lemma endsWith_inv (s t : string) :
  endsWith s t = true -> exists u, s = u ++ t.
Proof.
  unfold endsWith. intros H. apply andb_true_iff in H as [Hlen Heq].
  apply Nat.leb_le in Hlen. apply String.eqb_eq in Heq.
  exists (substring 0 (String.length s - String.length t) s).
  rewrite (substring_split s (String.length s - String.length t)) at 1 by lia.
  f_equal.
  replace (String.length s - (String.length s - String.length t))
    with (String.length t) by lia.
  exact Heq.
Qed.

Lemma endsWith_iff (s t : string) :
  endsWith s t = true <-> exists u, s = u ++ t.
Proof.
  split; [apply endsWith_inv|]. intros [u ->]. apply endsWith_app.
Qed.

(** ** Event classifiers, further *)

Lemma release_not_push (ctx : Context) :
  isRelease ctx = true -> isPush ctx = false.
Proof.
  unfold isRelease, isPush. intros H. apply String.eqb_eq in H. now rewrite H.
Qed.



(** X2: no event is classified both as a release and as a push: on a
    release event every push predicate returns false, without reading
    [ref], and on a push event [isPublicRelease] is false. *)
Theorem release_push_exclusive (ctx : Context) :
  ~ (isRelease ctx = true /\ isPush ctx = true) /\
  (isRelease ctx = true ->
   isNewRefPush ctx = false /\
   isBranchPush ctx = Normal false /\ isTagPush ctx = Normal false) /\
  (isPush ctx = true -> isPublicRelease ctx = false).
Proof.
  split; [|split].
  - intros [Hr Hp]. apply release_not_push in Hr. congruence.
  - intros Hr. apply release_not_push in Hr.
    unfold isBranchPush, isTagPush, isNewRefPush. rewrite Hr. cbn. auto.
  - intros Hp. unfold isPublicRelease.
    destruct (isRelease ctx) eqn:Hr; [|reflexivity].
    apply release_not_push in Hr. congruence.
Qed.

Lemma release_push_exclusive_witness :
  isNewRefPush (release_event (Some "v1.0.0") false) = false /\
  isBranchPush (release_event (Some "v1.0.0") false) = Normal false /\
  isTagPush (release_event (Some "v1.0.0") false) = Normal false /\
  isPublicRelease (push_event (Some "refs/tags/v1.0.0") true) = false.
Proof.
  split; [|split; [|split]].
  - apply (proj1 (proj2 (release_push_exclusive (release_event (Some "v1.0.0") false)))).
    reflexivity.
  - apply (proj1 (proj2 (release_push_exclusive (release_event (Some "v1.0.0") false)))).
    reflexivity.
  - apply (proj1 (proj2 (release_push_exclusive (release_event (Some "v1.0.0") false)))).
    reflexivity.
  - apply (proj2 (proj2 (release_push_exclusive
                           (push_event (Some "refs/tags/v1.0.0") true)))).
    reflexivity.
Defined.

(** ** Version resolvers, further *)

(** X3: for a namespace name without pattern characters,
    [getPushRefVersion] parses exactly what follows
    [refs/preferredRef/] when the ref starts with it, once, and parses the
    whole ref when it does not. *)
Theorem getPushRefVersion_strips_namespace {imports : Imports}
  (preferredRef : string) (ctx : Context) :
  regExpLiteral preferredRef = true ->
  (forall name,
     ref (payload ctx) = Some ("refs/" ++ preferredRef ++ "/" ++ name) ->
     getPushRefVersion preferredRef ctx = Normal (parse_string name)) /\
  (forall r,
     ref (payload ctx) = Some r ->
     startsWith r ("refs/" ++ preferredRef ++ "/") = false ->
     getPushRefVersion preferredRef ctx = Normal (parse_string r)).
Proof.
  intros _. split.
  - intros name Hr.
    rewrite (getPushRefVersion_ref preferredRef ctx _ Hr). do 2 f_equal.
    replace ("refs/" ++ preferredRef ++ "/" ++ name)
      with (("refs/" ++ preferredRef ++ "/") ++ name).
    + apply replacePrefix_app.
    + rewrite string_app_assoc. f_equal. apply string_app_assoc.
  - intros r Hr Hs.
    rewrite (getPushRefVersion_ref preferredRef ctx r Hr).
    now rewrite (replacePrefix_other _ _ Hs).
Qed.

Lemma getPushRefVersion_strips_namespace_witness :
  @getPushRefVersion reference_imports "tags"
    (push_event (Some "refs/tags/refs/tags/v1.2.3") true)
  = Normal (@parse_string reference_imports "refs/tags/v1.2.3") /\
  @getPushRefVersion reference_imports "tags" (push_event (Some "refs/heads/1.2.3") true)
  = Normal (@parse_string reference_imports "refs/heads/1.2.3").
Proof.
  split.
  - apply (proj1 (@getPushRefVersion_strips_namespace reference_imports "tags"
                    (push_event (Some "refs/tags/refs/tags/v1.2.3") true) eq_refl)
             "refs/tags/v1.2.3").
    reflexivity.
  - apply (proj2 (@getPushRefVersion_strips_namespace reference_imports "tags"
                    (push_event (Some "refs/heads/1.2.3") true) eq_refl)
             "refs/heads/1.2.3"); reflexivity.
Defined.

(** X4: which grammar a resolver consults: the tag of a pre-release depends
    on coercion alone, the tag of any other release and the version of a
    push on strict parsing alone; two semver packages that agree on the one
    consulted give the same result, whatever they do on the other. *)
Theorem resolvers_consult_one_grammar (imports1 imports2 : Imports)
  (preferredRef : string) (ctx : Context) :
  (isPreRelease ctx = true ->
   (forall s, @coerce_string imports1 s = @coerce_string imports2 s) ->
   @getReleaseTag imports1 ctx = @getReleaseTag imports2 ctx) /\
  (isPreRelease ctx = false ->
   (forall s, @parse_string imports1 s = @parse_string imports2 s) ->
   @getReleaseTag imports1 ctx = @getReleaseTag imports2 ctx) /\
  ((forall s, @parse_string imports1 s = @parse_string imports2 s) ->
   @getPushRefVersion imports1 preferredRef ctx
   = @getPushRefVersion imports2 preferredRef ctx).
Proof.
  split; [|split].
  - intros Hp Hc. unfold getReleaseTag. rewrite Hp.
    destruct (releaseTagName ctx) as [| |t|v]; try reflexivity.
    now rewrite !semverParse_coerce_string, Hc.
  - intros Hp Hs. unfold getReleaseTag. rewrite Hp.
    destruct (releaseTagName ctx) as [| |t|v]; try reflexivity.
    cbn. now rewrite Hs.
  - intros Hs. unfold getPushRefVersion, pushRefName.
    destruct (ref (payload ctx)) as [r|]; [|reflexivity].
    cbn. now rewrite Hs.
Qed.

Lemma resolvers_consult_one_grammar_witness :
  @getReleaseTag reference_imports (release_event (Some "v3.1-beta") true)
  = @getReleaseTag coerce_only_imports (release_event (Some "v3.1-beta") true) /\
  @getReleaseTag reference_imports (release_event (Some "2.0.0") false)
  = @getReleaseTag strict_only_imports (release_event (Some "2.0.0") false) /\
  @getPushRefVersion reference_imports "tags" (push_event (Some "refs/tags/v1.2.3") true)
  = @getPushRefVersion strict_only_imports "tags"
      (push_event (Some "refs/tags/v1.2.3") true).
Proof.
  split; [|split].
  - apply (proj1 (resolvers_consult_one_grammar reference_imports coerce_only_imports
                    "tags" (release_event (Some "v3.1-beta") true)));
      [reflexivity|intros s; reflexivity].
  - apply (proj1 (proj2 (resolvers_consult_one_grammar reference_imports
                           strict_only_imports "tags"
                           (release_event (Some "2.0.0") false))));
      [reflexivity|intros s; reflexivity].
  - apply (proj2 (proj2 (resolvers_consult_one_grammar reference_imports
                           strict_only_imports "tags"
                           (push_event (Some "refs/tags/v1.2.3") true)))).
    intros s. reflexivity.
Defined.

(** ** The upsert, further *)

Section UpsertFurther.
Context {R : Type}.
Variable github : GitHub R.
Variable env : Env.

(** The whole run of [createRef], case by case. *)
Lemma createRef_run (refName : string) (r : R) :
  let p := listMatchingRefsParams env refName in
  createRef github env refName r
  = match git_listMatchingRefs github p r with
    | (Throw e, r1) => (Thrown e, r1, [ListMatchingRefs p (Throw e)])
    | (Normal matchingRefs, r1) =>
        if existsb (refMatches refName) matchingRefs
        then
          match git_updateRef github (updateRefParams env refName) r1 with
          | (Normal data, r2) =>
              (Returned tt, r2,
               [ListMatchingRefs p (Normal matchingRefs);
                Info ("Updating ref: " ++ refName ++ " to: "
                      ++ interpolate (GITHUB_SHA env));
                UpdateRef (updateRefParams env refName) (Normal data)]
               ++ (if isDebug env
                   then [Debug (JSON_stringify data ++ " now points to: " ++ dquote
                                ++ interpolate (GITHUB_SHA env) ++ dquote)]
                   else []))%list
          | (Throw e, r2) =>
              (Thrown e, r2,
               [ListMatchingRefs p (Normal matchingRefs);
                Info ("Updating ref: " ++ refName ++ " to: "
                      ++ interpolate (GITHUB_SHA env));
                UpdateRef (updateRefParams env refName) (Throw e)])
          end
        else
          match git_createRef github (createRefParams env refName) r1 with
          | (Normal data, r2) =>
              (Returned tt, r2,
               [ListMatchingRefs p (Normal matchingRefs);
                Info ("Creating ref: refs/" ++ refName ++ " for: "
                      ++ interpolate (GITHUB_SHA env));
                CreateRef (createRefParams env refName) (Normal data)]
               ++ (if isDebug env
                   then [Debug (JSON_stringify data ++ " now points to: " ++ dquote
                                ++ interpolate (GITHUB_SHA env) ++ dquote)]
                   else []))%list
          | (Throw e, r2) =>
              (Thrown e, r2,
               [ListMatchingRefs p (Normal matchingRefs);
                Info ("Creating ref: refs/" ++ refName ++ " for: "
                      ++ interpolate (GITHUB_SHA env));
                CreateRef (createRefParams env refName) (Throw e)])
          end
    end.
Proof.
  cbv zeta. unfold createRef, bind, await, core_info, core_debug, emit, ret.
  destruct (git_listMatchingRefs github (listMatchingRefsParams env refName) r)
    as [[matchingRefs|e] r1]; [|reflexivity].
  pose proof (findMatchingRef_existsb refName matchingRefs) as Hfind.
  destruct (findMatchingRef refName matchingRefs); rewrite Hfind.
  - destruct (git_updateRef github (updateRefParams env refName) r1) as [[j|e] r2];
      [destruct (isDebug env)|]; reflexivity.
  - destruct (git_createRef github (createRefParams env refName) r1) as [[j|e] r2];
      [destruct (isDebug env)|]; reflexivity.
Qed.

(** X5: [createRef] returns exactly when both of its requests are answered
    and throws exactly the rejection of a request, which is then the last
    thing it does: after a rejected query no mutation is sent and nothing
    is logged, and after a rejected mutation no debug line is written. *)
Theorem createRef_rejection_is_fatal (refName : string) (r : R) :
  let run := createRef github env refName r in
  match outcome run with
  | Returned _ =>
      rejections (trace run) = [] /\ length (requests (trace run)) = 2
  | Thrown e =>
      rejections (trace run) = [e] /\
      debugLines (trace run) = [] /\
      exists before request,
        trace run = (before ++ [request])%list /\
        rejections before = [] /\ rejections [request] = [e]
  | OutOfFuel => False
  end.
Proof.
  cbv zeta. rewrite createRef_run. cbv zeta.
  destruct (git_listMatchingRefs github (listMatchingRefsParams env refName) r)
    as [[matchingRefs|e] r1].
  - destruct (existsb (refMatches refName) matchingRefs).
    + destruct (git_updateRef github (updateRefParams env refName) r1) as [[j|e] r2].
      * unfold outcome, trace. cbn [fst snd].
        destruct (isDebug env); split; reflexivity.
      * unfold outcome, trace. cbn [fst snd].
        split; [reflexivity|]. split; [reflexivity|].
        eexists [_; _], _. repeat split.
    + destruct (git_createRef github (createRefParams env refName) r1) as [[j|e] r2].
      * unfold outcome, trace. cbn [fst snd].
        destruct (isDebug env); split; reflexivity.
      * unfold outcome, trace. cbn [fst snd].
        split; [reflexivity|]. split; [reflexivity|].
        eexists [_; _], _. repeat split.
  - unfold outcome, trace. cbn [fst snd].
    split; [reflexivity|]. split; [reflexivity|].
    exists [], (ListMatchingRefs (listMatchingRefsParams env refName) (Throw e)).
    repeat split.
Qed.

(** X6: the notice is logged before the mutation is sent, once for each
    mutation and so also for one the remote then rejects; the debug line is
    written only when debugging is on and the mutation was answered. *)
Theorem createRef_log_lines (refName : string) (r : R) :
  let run := createRef github env refName r in
  length (filter isInfoLine (trace run)) = length (mutations (trace run)) /\
  (forall before m after,
     trace run = (before ++ m :: after)%list -> isUpdate m || isCreate m = true ->
     exists before' msg, before = (before' ++ [Info msg])%list) /\
  length (debugLines (trace run))
  = match outcome run with
    | Returned _ => if isDebug env then 1 else 0
    | Thrown _ | OutOfFuel => 0
    end.
Proof.
  cbv zeta. rewrite createRef_run. cbv zeta.
  assert (Hshape : forall (q i m : Event) (rest before after : list Event) (x : Event),
             isUpdate q || isCreate q = false ->
             isUpdate i || isCreate i = false ->
             Forall (fun e => isUpdate e || isCreate e = false) rest ->
             ([q; i; m] ++ rest = before ++ x :: after)%list ->
             isUpdate x || isCreate x = true ->
             before = [q; i]).
  { intros q i m rest before after x Hq Hi Hrest Heq Hx.
    destruct before as [|b0 before]; cbn in Heq.
    { injection Heq as <- _. congruence. }
    injection Heq as <- Heq.
    destruct before as [|b1 before]; cbn in Heq.
    { injection Heq as <- _. congruence. }
    injection Heq as <- Heq.
    destruct before as [|b2 before]; cbn in Heq; [reflexivity|].
    injection Heq as <- Heq.
    exfalso. rewrite Heq in Hrest. apply Forall_app in Hrest as [_ Hrest].
    inversion Hrest; subst. congruence. }
  destruct (git_listMatchingRefs github (listMatchingRefsParams env refName) r)
    as [[matchingRefs|e] r1].
  - destruct (existsb (refMatches refName) matchingRefs).
    + destruct (git_updateRef github (updateRefParams env refName) r1) as [[j|e] r2];
        unfold outcome, trace; cbn [fst snd].
      * split; [destruct (isDebug env); reflexivity|].
        split; [|destruct (isDebug env); reflexivity].
        intros before m after Heq Hm.
        apply Hshape in Heq; try reflexivity; try exact Hm.
        -- subst before. eexists [_], _. reflexivity.
        -- destruct (isDebug env); repeat constructor.
      * split; [reflexivity|]. split; [|reflexivity].
        intros before m after Heq Hm.
        apply (Hshape _ _ _ []) in Heq; try reflexivity; try exact Hm.
        -- subst before. eexists [_], _. reflexivity.
        -- constructor.
    + destruct (git_createRef github (createRefParams env refName) r1) as [[j|e] r2];
        unfold outcome, trace; cbn [fst snd].
      * split; [destruct (isDebug env); reflexivity|].
        split; [|destruct (isDebug env); reflexivity].
        intros before m after Heq Hm.
        apply Hshape in Heq; try reflexivity; try exact Hm.
        -- subst before. eexists [_], _. reflexivity.
        -- destruct (isDebug env); repeat constructor.
      * split; [reflexivity|]. split; [|reflexivity].
        intros before m after Heq Hm.
        apply (Hshape _ _ _ []) in Heq; try reflexivity; try exact Hm.
        -- subst before. eexists [_], _. reflexivity.
        -- constructor.
  - unfold outcome, trace. cbn [fst snd].
    split; [reflexivity|]. split; [|reflexivity].
    intros before m after Heq Hm. exfalso.
    destruct before as [|b0 before]; cbn in Heq.
    + injection Heq as <- _. discriminate Hm.
    + injection Heq as _ Heq. destruct before; discriminate Heq.
Qed.

(** X7: what counts as the ref existing: [createRef] updates exactly when
    the name of some returned ref is [u ++ refName] for some [u], whether
    or not that ref is [refs/refName] itself, and creates exactly when no
    returned name ends so; a returned ref that only starts like the name
    does not count. *)
Theorem createRef_suffix_decides (refName : string) (r : R)
  (matchingRefs : list RefObj) :
  fst (git_listMatchingRefs github (listMatchingRefsParams env refName) r)
  = Normal matchingRefs ->
  (mutations (trace (createRef github env refName r))
   = [DoUpdate (updateRefParams env refName)] <->
   exists refObj u, In refObj matchingRefs /\ refObj_ref refObj = u ++ refName) /\
  (mutations (trace (createRef github env refName r))
   = [DoCreate (createRefParams env refName)] <->
   forall refObj u, In refObj matchingRefs -> refObj_ref refObj <> u ++ refName).
Proof.
  intros Hq. rewrite createRef_mutations, Hq. cbn [refExists].
  destruct (existsb (refMatches refName) matchingRefs) eqn:Hex.
  - apply existsb_exists in Hex as (refObj & Hin & Hm).
    apply endsWith_inv in Hm as (u & Hu).
    split; split; try discriminate.
    + intros _. now exists refObj, u.
    + reflexivity.
    + intros Hnone. elim (Hnone refObj u Hin Hu).
  - split; split; try discriminate.
    + intros (refObj & u & Hin & Hu). exfalso.
      assert (existsb (refMatches refName) matchingRefs = true); [|congruence].
      apply existsb_exists. exists refObj. split; [exact Hin|].
      unfold refMatches. rewrite Hu. apply endsWith_app.
    + intros _ refObj u Hin Hu.
      assert (existsb (refMatches refName) matchingRefs = true); [|congruence].
      apply existsb_exists. exists refObj. split; [exact Hin|].
      unfold refMatches. rewrite Hu. apply endsWith_app.
    + reflexivity.
Qed.

End UpsertFurther.

(** X8: debugging does not change what [createRef] does: two environments
    with the same context and commit give the same outcome, the same final
    remote and, debug lines apart, the same trace; without debugging the
    trace has no debug line. *)
Theorem createRef_debug_is_silent {R : Type} (github : GitHub R) (env1 env2 : Env)
  (refName : string) (r : R) :
  context env1 = context env2 ->
  GITHUB_SHA env1 = GITHUB_SHA env2 ->
  outcome (createRef github env1 refName r) = outcome (createRef github env2 refName r) /\
  final (createRef github env1 refName r) = final (createRef github env2 refName r) /\
  withoutDebug (trace (createRef github env1 refName r))
  = withoutDebug (trace (createRef github env2 refName r)) /\
  (isDebug env1 = false ->
   withoutDebug (trace (createRef github env1 refName r))
   = trace (createRef github env1 refName r)).
Proof.
  intros Hctx Hsha. rewrite !createRef_run. cbv zeta.
  unfold listMatchingRefsParams, updateRefParams, createRefParams.
  rewrite <- Hctx, <- Hsha.
  destruct (git_listMatchingRefs github _ r) as [[matchingRefs|e] r1].
  - destruct (existsb (refMatches refName) matchingRefs).
    + destruct (git_updateRef github _ r1) as [[j|e] r2];
        unfold outcome, final, trace; cbn [fst snd].
      * destruct (isDebug env1), (isDebug env2); repeat split; try reflexivity;
          discriminate.
      * repeat split.
    + destruct (git_createRef github _ r1) as [[j|e] r2];
        unfold outcome, final, trace; cbn [fst snd].
      * destruct (isDebug env1), (isDebug env2); repeat split; try reflexivity;
          discriminate.
      * repeat split.
  - unfold outcome, final, trace. cbn [fst snd]. repeat split.
Qed.

Lemma createRef_suffix_decides_witness :
  mutations (trace (createRef memory_github upstream_env "tags/v1" sample_store))
  = [DoUpdate (updateRefParams upstream_env "tags/v1")] /\
  mutations (trace (createRef memory_github upstream_env "tags/v1" truncated_store))
  = [DoCreate (createRefParams upstream_env "tags/v1")].
Proof.
  split.
  - apply (proj1 (createRef_suffix_decides memory_github upstream_env "tags/v1"
                    sample_store _ eq_refl)).
    exists {| refObj_ref := "refs/tags/v1" |}, "refs/".
    split; [left; reflexivity|reflexivity].
  - apply (proj2 (createRef_suffix_decides memory_github upstream_env "tags/v1"
                    truncated_store _ eq_refl)).
    intros refObj u [<-|[]] Hu.
    pose proof (endsWith_app u "tags/v1") as Hends.
    rewrite <- Hu in Hends. cbn [refObj_ref fst] in Hends.
    vm_compute in Hends. discriminate Hends.
Defined.

Lemma createRef_debug_is_silent_witness :
  outcome (createRef memory_github upstream_env "tags/v1" sample_store)
  = outcome (createRef memory_github debug_env "tags/v1" sample_store) /\
  final (createRef memory_github upstream_env "tags/v1" sample_store)
  = final (createRef memory_github debug_env "tags/v1" sample_store) /\
  withoutDebug (trace (createRef memory_github upstream_env "tags/v1" sample_store))
  = withoutDebug (trace (createRef memory_github debug_env "tags/v1" sample_store)) /\
  (isDebug upstream_env = false ->
   withoutDebug (trace (createRef memory_github upstream_env "tags/v1" sample_store))
   = trace (createRef memory_github upstream_env "tags/v1" sample_store)).
Proof.
  apply (createRef_debug_is_silent memory_github upstream_env debug_env "tags/v1"
           sample_store); reflexivity.
Defined.

(** ** The enumerator, further *)

Lemma withoutDebug_app (t u : list Event) :
  withoutDebug (t ++ u) = (withoutDebug t ++ withoutDebug u)%list.
Proof. apply filter_app. Qed.

Lemma debugLines_app (t u : list Event) :
  debugLines (t ++ u) = (debugLines t ++ debugLines u)%list.
Proof. apply filter_app. Qed.

Lemma debugLines_query (q : string) (v : QueryVariables)
  (answer : Completion GraphQlQueryRepository) (t : list Event) :
  debugLines (Graphql q v answer :: t) = debugLines t.
Proof. reflexivity. Qed.

Lemma withoutDebug_query (q : string) (v : QueryVariables)
  (answer : Completion GraphQlQueryRepository) (t : list Event) :
  withoutDebug (Graphql q v answer :: t) = Graphql q v answer :: withoutDebug t.
Proof. reflexivity. Qed.

Lemma requests_app (t u : list Event) :
  requests (t ++ u) = (requests t ++ requests u)%list.
Proof. apply filter_app. Qed.

Section ScanFurther.
Context {imports : Imports}.

Lemma withoutDebug_scanTrace (env : Env) (nodes : list RefNode) :
  withoutDebug (scanTrace env nodes) = map Yield (flat_map parsedRef nodes).
Proof.
  induction nodes as [|node nodes IH]; [reflexivity|].
  cbn [scanTrace flat_map]. fold (scanTrace env nodes).
  rewrite withoutDebug_app, map_app, IH. f_equal.
  unfold visitTrace, parsedRef.
  destruct (semverParse (JsString (ref_name node))); destruct (isDebug env); reflexivity.
Qed.

Lemma debugLines_scanTrace (env : Env) (nodes : list RefNode) :
  length (debugLines (scanTrace env nodes))
  = if isDebug env then length nodes else 0.
Proof.
  induction nodes as [|node nodes IH]; [destruct (isDebug env); reflexivity|].
  cbn [scanTrace flat_map]. fold (scanTrace env nodes).
  rewrite debugLines_app, length_app, IH.
  unfold visitTrace.
  destruct (semverParse (JsString (ref_name node))); destruct (isDebug env); reflexivity.
Qed.

Lemma requests_scanTrace (env : Env) (nodes : list RefNode) :
  requests (scanTrace env nodes) = [].
Proof.
  induction nodes as [|node nodes IH]; [reflexivity|].
  cbn [scanTrace flat_map]. fold (scanTrace env nodes).
  rewrite requests_app, IH. unfold visitTrace.
  destruct (semverParse (JsString (ref_name node))); destruct (isDebug env); reflexivity.
Qed.

Lemma mutations_scanTrace (env : Env) (nodes : list RefNode) :
  mutations (scanTrace env nodes) = [].
Proof.
  induction nodes as [|node nodes IH]; [reflexivity|].
  cbn [scanTrace flat_map]. fold (scanTrace env nodes).
  rewrite mutations_app, IH. unfold visitTrace.
  destruct (semverParse (JsString (ref_name node))); destruct (isDebug env); reflexivity.
Qed.

Lemma parsedRef_length (node : RefNode) : length (parsedRef node) <= 1.
Proof.
  unfold parsedRef. destruct (semverParse (JsString (ref_name node))); cbn; lia.
Qed.

Lemma parsedRefs_length (nodes : list RefNode) :
  length (flat_map parsedRef nodes) <= length nodes.
Proof.
  induction nodes as [|node nodes IH]; [cbn; lia|].
  cbn [flat_map]. rewrite length_app. pose proof (parsedRef_length node). cbn. lia.
Qed.

End ScanFurther.

Section EnumeratorFurther.
Context {imports : Imports} {R : Type}.
Variable github : GitHub R.
Variable env : Env.
Variable preferredRef : string.

Local Ltac next_turn fuel IH nextPage r p e r1 Hmore :=
  rewrite listAllRefs_from_step; cbv zeta;
  destruct (graphql github queryAllRefs (queryVariables env preferredRef nextPage) r)
    as [[p|e] r1];
  [destruct (hasNextPage (pageInfo (refs p))) eqn:Hmore|].

Lemma listAllRefs_from_cursors (fuel : nat) :
  forall (nextPage : option string) (r : R),
    let t := trace (listAllRefs_from github env fuel preferredRef nextPage r) in
    length (rejections t) <= 1 /\
    queries t
    = map (queryVariables env preferredRef)
        (firstn (length (pagesOf t) + length (rejections t))
           (nextPage :: map (fun p => Some (endCursor (pageInfo (refs p)))) (pagesOf t))).
Proof.
  induction fuel as [|fuel IH]; intros nextPage r; cbv zeta.
  - cbn. split; [lia|reflexivity].
  - next_turn fuel IH nextPage r p e r1 Hmore.
    + specialize (IH (Some (endCursor (pageInfo (refs p)))) r1). cbv zeta in IH.
      destruct (listAllRefs_from github env fuel preferredRef
                  (Some (endCursor (pageInfo (refs p)))) r1) as [[o r2] t].
      unfold trace in *. cbn [fst snd] in *. destruct IH as [Hrej Hq].
      cbn [queries pagesOf rejections].
      rewrite queries_app, pagesOf_app, rejections_app.
      rewrite queries_scanTrace, pagesOf_scanTrace, rejections_scanTrace.
      cbn [app length map Nat.add firstn].
      split; [exact Hrej|]. f_equal. exact Hq.
    + unfold trace. cbn [fst snd queries pagesOf rejections].
      rewrite queries_app, pagesOf_app, rejections_app.
      rewrite queries_scanTrace, pagesOf_scanTrace, rejections_scanTrace.
      cbn. split; [lia|reflexivity].
    + unfold trace. cbn. split; [lia|reflexivity].
Qed.

(** X9: whatever the remote answers and wherever the run ends, the page
    queries form one chain: the first carries no cursor, each later one the
    end cursor of the page received just before, all for the same owner,
    repository and [refs/preferredRef/] namespace; every query is answered
    by a page except at most one, the rejected last. *)
Theorem listAllRefs_cursor_chain (fuel : nat) (r : R) :
  let t := trace (listAllRefs github env fuel preferredRef r) in
  length (queries t) = length (pagesOf t) + length (rejections t) /\
  length (rejections t) <= 1 /\
  queries t
  = map (queryVariables env preferredRef)
      (firstn (length (queries t))
         (None :: map (fun p => Some (endCursor (pageInfo (refs p)))) (pagesOf t))).
Proof.
  cbv zeta. unfold listAllRefs.
  destruct (listAllRefs_from_cursors fuel None r) as [Hrej Hq]. cbv zeta in Hq.
  set (t := trace (listAllRefs_from github env fuel preferredRef None r)) in *.
  assert (Hlen : length (queries t) = length (pagesOf t) + length (rejections t)).
  { rewrite Hq, length_map, length_firstn. cbn [length]. rewrite length_map. lia. }
  split; [exact Hlen|]. split; [exact Hrej|].
  rewrite Hlen. exact Hq.
Qed.

Lemma listAllRefs_from_more (fuel : nat) :
  forall (nextPage : option string) (r : R),
    let run := listAllRefs_from github env fuel preferredRef nextPage r in
    match outcome run with
    | Returned _ =>
        exists init p,
          pagesOf (trace run) = (init ++ [p])%list /\
          Forall (fun q => hasNextPage (pageInfo (refs q)) = true) init /\
          hasNextPage (pageInfo (refs p)) = false
    | Thrown _ =>
        Forall (fun q => hasNextPage (pageInfo (refs q)) = true) (pagesOf (trace run))
    | OutOfFuel =>
        Forall (fun q => hasNextPage (pageInfo (refs q)) = true) (pagesOf (trace run)) /\
        length (pagesOf (trace run)) = fuel
    end.
Proof.
  induction fuel as [|fuel IH]; intros nextPage r; cbv zeta.
  - cbn. split; [constructor|reflexivity].
  - next_turn fuel IH nextPage r p e r1 Hmore.
    + specialize (IH (Some (endCursor (pageInfo (refs p)))) r1). cbv zeta in IH.
      destruct (listAllRefs_from github env fuel preferredRef
                  (Some (endCursor (pageInfo (refs p)))) r1) as [[o r2] t].
      unfold outcome, trace in *. cbn [fst snd] in *.
      cbn [pagesOf]. rewrite pagesOf_app, pagesOf_scanTrace. cbn [app].
      destruct o as [u|e|].
      * destruct IH as (init & q & Hp & Hinit & Hq).
        exists (p :: init), q. rewrite Hp. split; [reflexivity|].
        split; [constructor; assumption|exact Hq].
      * constructor; assumption.
      * destruct IH as [Hall Hlen]. split; [constructor; assumption|].
        cbn. now rewrite Hlen.
    + unfold outcome, trace. cbn [fst snd pagesOf].
      rewrite pagesOf_app, pagesOf_scanTrace. cbn [app pagesOf].
      exists [], p. split; [reflexivity|]. split; [constructor|exact Hmore].
    + unfold outcome, trace. cbn. constructor.
Qed.

(** X10: the enumerator asks for another page only after a page that
    reports one: every page received but the last reports a next page; the
    run returns only after a page that reports none, and that page is the
    last one it received. *)
Theorem listAllRefs_stops_at_last_page (fuel : nat) (r : R) :
  let run := listAllRefs github env fuel preferredRef r in
  Forall (fun q => hasNextPage (pageInfo (refs q)) = true)
         (removelast (pagesOf (trace run))) /\
  match outcome run with
  | Returned _ =>
      exists init p,
        pagesOf (trace run) = (init ++ [p])%list /\
        hasNextPage (pageInfo (refs p)) = false
  | Thrown _ | OutOfFuel =>
      Forall (fun q => hasNextPage (pageInfo (refs q)) = true) (pagesOf (trace run))
  end.
Proof.
  cbv zeta. unfold listAllRefs.
  pose proof (listAllRefs_from_more fuel None r) as H. cbv zeta in H.
  assert (Hinit : forall l : list GraphQlQueryRepository,
             Forall (fun q => hasNextPage (pageInfo (refs q)) = true) l ->
             Forall (fun q => hasNextPage (pageInfo (refs q)) = true) (removelast l)).
  { intros l Hl. apply Forall_forall. intros x Hx.
    rewrite Forall_forall in Hl. apply Hl.
    clear Hl. induction l as [|a l IHl]; [contradiction|].
    cbn in Hx. destruct l as [|b l]; [contradiction|].
    destruct Hx as [<-|Hx]; [now left|right; now apply IHl]. }
  destruct (outcome (listAllRefs_from github env fuel preferredRef None r)) as [u|e|].
  - destruct H as (init & p & Hp & Hall & Hlast). split.
    + rewrite Hp, removelast_last. exact Hall.
    + now exists init, p.
  - split; [apply Hinit|]; exact H.
  - destruct H as [H _]. split; [apply Hinit|]; exact H.
Qed.

(** A remote that serves [pages] and then rejects is enumerated up to the
    rejection. *)
Lemma listAllRefs_from_rejected (pages : list GraphQlQueryRepository) (e : JsError) :
  forall (nextPage : option string) (r : R),
    servesThenRejects github env preferredRef pages e nextPage r ->
    exists r',
      forall fuel, length pages < fuel ->
        listAllRefs_from github env fuel preferredRef nextPage r
        = (Thrown e, r',
           (enumerationTrace env preferredRef nextPage pages
            ++ [Graphql queryAllRefs
                  (queryVariables env preferredRef (cursorAfter nextPage pages))
                  (Throw e)])%list).
Proof.
  induction pages as [|p rest IH]; intros nextPage r Hs.
  - destruct Hs as (r' & Hq). exists r'. intros fuel Hfuel.
    destruct fuel as [|fuel]; [lia|].
    rewrite listAllRefs_from_step, Hq. reflexivity.
  - destruct Hs as (r1 & Hq & Hmore & Hrest).
    destruct (IH _ _ Hrest) as (r' & Hrun).
    exists r'. intros fuel Hfuel.
    destruct fuel as [|fuel]; [lia|].
    cbn [length] in Hfuel. apply PeanoNat.lt_S_n in Hfuel.
    rewrite listAllRefs_from_step, Hq, Hmore, (Hrun fuel Hfuel).
    cbv zeta. unfold outcome, final, trace. cbn [fst snd enumerationTrace cursorAfter].
    rewrite <- app_comm_cons, <- app_assoc. reflexivity.
Qed.

(** X11: a rejection in the middle of an enumeration comes after the pairs
    of all earlier pages were yielded: when the remote serves [pages] and
    rejects the next query with [e], the run throws [e] having yielded the
    parsed entries of [pages], in order, and its last query carries the end
    cursor of the last page. *)
Theorem listAllRefs_rejected_midway (pages : list GraphQlQueryRepository)
  (e : JsError) (r : R) (fuel : nat) :
  servesThenRejects github env preferredRef pages e None r ->
  length pages < fuel ->
  let run := listAllRefs github env fuel preferredRef r in
  outcome run = Thrown e /\
  yields (trace run) = flat_map parsedRefs pages /\
  pagesOf (trace run) = pages /\
  trace run
  = (enumerationTrace env preferredRef None pages
     ++ [Graphql queryAllRefs
           (queryVariables env preferredRef (cursorAfter None pages)) (Throw e)])%list.
Proof.
  intros Hs Hfuel. cbv zeta. unfold listAllRefs.
  destruct (listAllRefs_from_rejected pages e None r Hs) as (r' & Hrun).
  rewrite (Hrun fuel Hfuel). unfold outcome, trace. cbn [fst snd].
  rewrite yields_app, pagesOf_app, yields_enumerationTrace, pagesOf_enumerationTrace.
  cbn [yields pagesOf]. rewrite !app_nil_r. repeat split.
Qed.

Lemma listAllRefs_from_readonly (fuel : nat) :
  forall (nextPage : option string) (r : R),
    let t := trace (listAllRefs_from github env fuel preferredRef nextPage r) in
    mutations t = [] /\ Forall isPageQuery (requests t).
Proof.
  induction fuel as [|fuel IH]; intros nextPage r; cbv zeta.
  - cbn. split; [reflexivity|constructor].
  - next_turn fuel IH nextPage r p e r1 Hmore.
    + specialize (IH (Some (endCursor (pageInfo (refs p)))) r1). cbv zeta in IH.
      destruct (listAllRefs_from github env fuel preferredRef
                  (Some (endCursor (pageInfo (refs p)))) r1) as [[o r2] t].
      unfold trace in *. cbn [fst snd] in *. destruct IH as [Hm Hq].
      cbn [mutations]. rewrite mutations_app, mutations_scanTrace.
      split; [exact Hm|].
      change (requests (?e :: ?l)) with (e :: requests l).
      rewrite requests_app, requests_scanTrace.
      constructor; [reflexivity|exact Hq].
    + unfold trace. cbn [fst snd mutations].
      rewrite mutations_app, mutations_scanTrace.
      split; [reflexivity|].
      change (requests (?e :: ?l)) with (e :: requests l).
      rewrite requests_app, requests_scanTrace.
      constructor; [reflexivity|constructor].
    + unfold trace. cbn. split; [reflexivity|].
      constructor; [reflexivity|constructor].
Qed.

(** X13: the enumerator only reads: it sends no mutation and no ref lookup;
    every request it makes is a page query with the imported query text. *)
Theorem listAllRefs_read_only (fuel : nat) (r : R) :
  let t := trace (listAllRefs github env fuel preferredRef r) in
  mutations t = [] /\
  Forall isPageQuery (requests t) /\
  length (requests t) = length (queries t).
Proof.
  cbv zeta. unfold listAllRefs.
  destruct (listAllRefs_from_readonly fuel None r) as [Hm Hq]. cbv zeta in Hq.
  split; [exact Hm|]. split; [exact Hq|].
  clear Hm. revert Hq.
  generalize (trace (listAllRefs_from github env fuel preferredRef None r)) as t.
  induction t as [|ev t IH]; intros Hq; [reflexivity|].
  destruct ev; cbn in Hq |- *; try (apply IH; exact Hq);
    inversion Hq; subst; try contradiction.
  f_equal. now apply IH.
Qed.

Lemma listAllRefs_from_debugLines (fuel : nat) :
  forall (nextPage : option string) (r : R),
    let t := trace (listAllRefs_from github env fuel preferredRef nextPage r) in
    length (debugLines t) = (if isDebug env then length (entriesOf t) else 0) /\
    length (yields t) <= length (entriesOf t).
Proof.
  induction fuel as [|fuel IH]; intros nextPage r; cbv zeta.
  - cbn. destruct (isDebug env); split; reflexivity || lia.
  - next_turn fuel IH nextPage r p e r1 Hmore.
    + specialize (IH (Some (endCursor (pageInfo (refs p)))) r1). cbv zeta in IH.
      destruct (listAllRefs_from github env fuel preferredRef
                  (Some (endCursor (pageInfo (refs p)))) r1) as [[o r2] t].
      unfold trace, entriesOf in *. cbn [fst snd] in *. destruct IH as [Hd Hy].
      cbn [pagesOf yields]. rewrite pagesOf_app, pagesOf_scanTrace, yields_app.
      rewrite yields_scanTrace. cbn [app flat_map]. rewrite !length_app.
      rewrite debugLines_query, debugLines_app, length_app, debugLines_scanTrace, Hd.
      pose proof (parsedRefs_length (refsList (refs p))).
      split; [destruct (isDebug env); lia|lia].
    + unfold trace, entriesOf. cbn [fst snd pagesOf yields].
      rewrite pagesOf_app, pagesOf_scanTrace, yields_app, yields_scanTrace.
      cbn [app flat_map pagesOf yields]. rewrite !length_app, !app_nil_r.
      rewrite debugLines_query, debugLines_scanTrace.
      pose proof (parsedRefs_length (refsList (refs p))).
      cbn. split; [destruct (isDebug env); lia|lia].
    + unfold trace, entriesOf. cbn. destruct (isDebug env); split; reflexivity || lia.
Qed.

(** X14: with debugging on, every entry of every page received is logged
    once, as checked or as ignored, and with debugging off nothing is
    logged; in both cases no more pairs are yielded than entries were
    received. *)
Theorem listAllRefs_debug_lines (fuel : nat) (r : R) :
  let t := trace (listAllRefs github env fuel preferredRef r) in
  length (debugLines t) = (if isDebug env then length (entriesOf t) else 0) /\
  length (yields t) <= length (entriesOf t).
Proof.
  cbv zeta. unfold listAllRefs. apply listAllRefs_from_debugLines.
Qed.

End EnumeratorFurther.

Section DebugSilent.
Context {imports : Imports} {R : Type}.
Variable github : GitHub R.
Variable preferredRef : string.

Lemma queryVariables_context (env1 env2 : Env) (nextPage : option string) :
  context env1 = context env2 ->
  queryVariables env1 preferredRef nextPage = queryVariables env2 preferredRef nextPage.
Proof.
  intros H. unfold queryVariables. now rewrite H.
Qed.

Lemma scanTrace_quiet (env : Env) (nodes : list RefNode) :
  isDebug env = false -> withoutDebug (scanTrace env nodes) = scanTrace env nodes.
Proof.
  intros Hq. induction nodes as [|node nodes IH]; [reflexivity|].
  cbn [scanTrace flat_map]. fold (scanTrace env nodes).
  rewrite withoutDebug_app, IH. f_equal.
  unfold visitTrace. rewrite Hq.
  destruct (semverParse (JsString (ref_name node))); reflexivity.
Qed.

Lemma listAllRefs_from_debug (env1 env2 : Env) (fuel : nat) :
  context env1 = context env2 ->
  forall (nextPage : option string) (r : R),
    outcome (listAllRefs_from github env1 fuel preferredRef nextPage r)
    = outcome (listAllRefs_from github env2 fuel preferredRef nextPage r) /\
    final (listAllRefs_from github env1 fuel preferredRef nextPage r)
    = final (listAllRefs_from github env2 fuel preferredRef nextPage r) /\
    withoutDebug (trace (listAllRefs_from github env1 fuel preferredRef nextPage r))
    = withoutDebug (trace (listAllRefs_from github env2 fuel preferredRef nextPage r)).
Proof.
  intros Hctx. induction fuel as [|fuel IH]; intros nextPage r.
  - repeat split.
  - rewrite !listAllRefs_from_step.
    rewrite (queryVariables_context env1 env2 nextPage Hctx).
    destruct (graphql github queryAllRefs (queryVariables env2 preferredRef nextPage) r)
      as [[p|e] r1]; [|repeat split].
    cbv zeta.
    destruct (hasNextPage (pageInfo (refs p))).
    + destruct (IH (Some (endCursor (pageInfo (refs p)))) r1) as (Ho & Hf & Ht).
      unfold outcome, final, trace in *. cbn [fst snd] in *.
      split; [exact Ho|]. split; [exact Hf|].
      rewrite !withoutDebug_query, !withoutDebug_app, !withoutDebug_scanTrace, Ht.
      reflexivity.
    + unfold outcome, final, trace. cbn [fst snd].
      split; [reflexivity|]. split; [reflexivity|].
      rewrite !withoutDebug_query, !withoutDebug_app, !withoutDebug_scanTrace.
      reflexivity.
Qed.

Lemma listAllRefs_from_quiet (env : Env) (fuel : nat) :
  isDebug env = false ->
  forall (nextPage : option string) (r : R),
    withoutDebug (trace (listAllRefs_from github env fuel preferredRef nextPage r))
    = trace (listAllRefs_from github env fuel preferredRef nextPage r).
Proof.
  intros Hq. induction fuel as [|fuel IH]; intros nextPage r; [reflexivity|].
  rewrite listAllRefs_from_step.
  destruct (graphql github queryAllRefs (queryVariables env preferredRef nextPage) r)
    as [[p|e] r1]; [|reflexivity].
  cbv zeta.
  destruct (hasNextPage (pageInfo (refs p))).
  - specialize (IH (Some (endCursor (pageInfo (refs p)))) r1).
    unfold trace in *. cbn [fst snd] in *.
    now rewrite withoutDebug_query, withoutDebug_app, scanTrace_quiet, IH.
  - unfold trace. cbn [fst snd].
    now rewrite withoutDebug_query, withoutDebug_app, scanTrace_quiet.
Qed.

(** X15: debugging does not change the enumeration: two environments with
    the same context give the same outcome, the same final remote and,
    debug lines apart, the same trace, so the same queries and the same
    yielded pairs; without debugging the trace has no debug line. *)
Theorem listAllRefs_debug_is_silent (env1 env2 : Env) (fuel : nat) (r : R) :
  context env1 = context env2 ->
  outcome (listAllRefs github env1 fuel preferredRef r)
  = outcome (listAllRefs github env2 fuel preferredRef r) /\
  final (listAllRefs github env1 fuel preferredRef r)
  = final (listAllRefs github env2 fuel preferredRef r) /\
  withoutDebug (trace (listAllRefs github env1 fuel preferredRef r))
  = withoutDebug (trace (listAllRefs github env2 fuel preferredRef r)) /\
  (isDebug env1 = false ->
   withoutDebug (trace (listAllRefs github env1 fuel preferredRef r))
   = trace (listAllRefs github env1 fuel preferredRef r)).
Proof.
  intros Hctx. unfold listAllRefs.
  destruct (listAllRefs_from_debug env1 env2 fuel Hctx None r) as (Ho & Hf & Ht).
  split; [exact Ho|]. split; [exact Hf|]. split; [exact Ht|].
  intros Hq. now apply listAllRefs_from_quiet.
Qed.

End DebugSilent.

Lemma listAllRefs_debug_is_silent_witness :
  outcome (@listAllRefs reference_imports Store memory_github upstream_env 2 "tags"
             sample_store)
  = outcome (@listAllRefs reference_imports Store memory_github debug_env 2 "tags"
               sample_store) /\
  final (@listAllRefs reference_imports Store memory_github upstream_env 2 "tags"
           sample_store)
  = final (@listAllRefs reference_imports Store memory_github debug_env 2 "tags"
             sample_store) /\
  withoutDebug (trace (@listAllRefs reference_imports Store memory_github upstream_env 2
                         "tags" sample_store))
  = withoutDebug (trace (@listAllRefs reference_imports Store memory_github debug_env 2
                           "tags" sample_store)) /\
  (isDebug upstream_env = false ->
   withoutDebug (trace (@listAllRefs reference_imports Store memory_github upstream_env 2
                          "tags" sample_store))
   = trace (@listAllRefs reference_imports Store memory_github upstream_env 2 "tags"
              sample_store)).
Proof.
  apply (@listAllRefs_debug_is_silent reference_imports Store memory_github "tags"
           upstream_env debug_env 2 sample_store).
  reflexivity.
Defined.

Lemma truncated_store_rejects :
  @servesThenRejects reference_imports Store memory_github upstream_env "tags"
    (store_pages truncated_store) (RequestError "no response") None truncated_store.
Proof.
  cbn. eexists. split; [reflexivity|]. split; [reflexivity|].
  eexists. reflexivity.
Qed.

Lemma listAllRefs_rejected_midway_witness :
  outcome (@listAllRefs reference_imports Store memory_github upstream_env 2 "tags"
             truncated_store) = Thrown (RequestError "no response") /\
  yields (trace (@listAllRefs reference_imports Store memory_github upstream_env 2
                   "tags" truncated_store))
  = [(mkSemVer 1 0 0 [] [], "aaa")] /\
  pagesOf (trace (@listAllRefs reference_imports Store memory_github upstream_env 2
                    "tags" truncated_store))
  = store_pages truncated_store /\
  trace (@listAllRefs reference_imports Store memory_github upstream_env 2 "tags"
           truncated_store)
  = (@enumerationTrace reference_imports upstream_env "tags" None
       (store_pages truncated_store)
     ++ [Graphql (@queryAllRefs reference_imports)
           {| repoName := "tagger"; repoOwner := "octo"; majorRef := "refs/tags/";
              pagination := Some "abc" |}
           (Throw (RequestError "no response"))])%list.
Proof.
  apply (@listAllRefs_rejected_midway reference_imports Store memory_github upstream_env
           "tags" (store_pages truncated_store) (RequestError "no response")
           truncated_store 2).
  - exact truncated_store_rejects.
  - apply le_n.
Defined.
